(** * Checkout: a shallow embedding of [after.py] and its specification

    The program computes a checkout total (subtotal, discount, shipping
    surcharge, tax), asks a payment processor to charge it and returns a
    receipt.  Python [float]s are embedded as IEEE 754 binary64 values
    ([spec_float] with a 53 bit mantissa), Python [int]s as [Z], [str] as
    [string] (one [ascii] per character), exceptions as a result type, and
    the calls to the pluggable collaborators as state passing over an
    arbitrary world, together with a history of the calls made. *)

From Stdlib Require Import ZArith Lia Bool List String Ascii.
From Stdlib Require Import Decimal DecimalString.
From Stdlib Require Import QArith Qabs Qpower.
From Stdlib Require Import Floats.SpecFloat Floats.PrimFloat Floats.FloatOps.
Import ListNotations.

Set Implicit Arguments.
Local Open Scope string_scope.
Local Open Scope Z_scope.
Set Warnings "-inexact-float".

(** ** Python floats *)

Module Float.

(** binary64: 53 bits of mantissa, infinities at exponent 1024.

    [spec_float] has one NaN.  A Python NaN also carries a sign and a
    payload, which depend on the order of the operands, and no NaN is [==]
    to any float, itself included; equality of embedded floats says
    nothing of the kind for NaN.  Every other double is embedded as it
    is, so the properties that equate results are stated for amounts that
    are numbers. *)
Definition prec : Z := 53.
Definition emax : Z := 1024.

Definition t : Type := spec_float.

Definition add : t -> t -> t := SFadd prec emax.
Definition sub : t -> t -> t := SFsub prec emax.
Definition mul : t -> t -> t := SFmul prec emax.
Definition leb : t -> t -> bool := SFleb.
Definition ltb : t -> t -> bool := SFltb.
Definition eqb : t -> t -> bool := SFeqb.

(** A float literal of the source: the double nearest to the decimal. *)
Definition lit (f : PrimFloat.float) : t := Prim2SF f.

Definition zero : t := S754_zero false.
Definition one : t := Eval vm_compute in lit 1.0.

(** [bool(x)]: a float is falsy exactly when it equals zero (of either
    sign); NaN is truthy. *)
Definition truthy (x : t) : bool := negb (eqb x zero).

(** The IEEE conversion of an integer: round to nearest, ties to even,
    infinity when the rounded value does not fit. *)
Definition of_Z (n : Z) : t := binary_normalize prec emax n 0 false.

Definition is_infinity (x : t) : bool :=
  match x with
  | S754_infinity _ => true
  | _ => false
  end.

(** [float(n)] for a Python int, as done implicitly by [float * int]:
    the IEEE conversion, except that Python raises OverflowError where it
    would give an infinity ([None] here). *)
Definition of_int (n : Z) : option t :=
  match of_Z n with
  | S754_infinity _ => None
  | x => Some x
  end.

(** The smallest positive int that [float] refuses. *)
Definition int_overflow_bound : Z := 2 ^ 1024 - 2 ^ 970.

End Float.

Abbreviation float := Float.t.

(** ** Exceptions and results *)

Inductive exception : Type :=
| PaymentDeclined (reason : string)
| ValueError (msg : string)
| OverflowError (msg : string).

(** The outcome of a Python expression: a value, or a raised exception. *)
Inductive result (A : Type) : Type :=
| Return (a : A)
| Raise (e : exception).
Arguments Return {A} a.
Arguments Raise {A} e.

Definition rbind {A B : Type} (r : result A) (k : A -> result B) : result B :=
  match r with
  | Return a => k a
  | Raise e => Raise e
  end.

(** [not x] for an optional string: [None] and the empty string are falsy. *)
Definition str_truthy (s : option string) : bool :=
  match s with
  | None => false
  | Some s => negb (String.eqb s "")
  end.

(** [s.startswith(p)] *)
Definition startswith (s p : string) : bool := String.prefix p s.

(** ** Value objects *)

Record Money : Type := { amount : float }.

(** A factor handed to [Money.times]: the source passes both a float (the
    discount rate, the tax multiplier) and an int (the quantity). *)
Inductive number : Type :=
| PyInt (n : Z)
| PyFloat (f : float).

(** The conversion [float * factor] performs on its right operand. *)
Definition as_float (factor : number) : result float :=
  match factor with
  | PyFloat f => Return f
  | PyInt n =>
      match Float.of_int n with
      | Some f => Return f
      | None => Raise (OverflowError "int too large to convert to float")
      end
  end.

Definition plus (self other : Money) : Money :=
  {| amount := Float.add (amount self) (amount other) |}.

Definition minus (self other : Money) : Money :=
  {| amount := Float.sub (amount self) (amount other) |}.

Definition times (self : Money) (factor : number) : result Money :=
  rbind (as_float factor) (fun f =>
  Return {| amount := Float.mul (amount self) f |}).

Record Address : Type :=
  { street : string; city : string; state : string; zip : string }.

(** [Address(street, city, state, zip)]: the dataclass constructor followed
    by [__post_init__].  The postal code may be absent ([None]). *)
Definition Address_init (street city state : string) (zip : option string)
  : result Address :=
  match zip with
  | None => Raise (ValueError "Invalid ZIP")
  | Some z =>
      if negb (str_truthy zip) || (String.length z <? 5)%nat
      then Raise (ValueError "Invalid ZIP")
      else Return {| street := street; city := city; state := state; zip := z |}
  end.

Record LineItem : Type :=
  { sku : string; unit_price : Money; quantity : Z }.

(** [LineItem(sku, unit_price, quantity)]: no [__post_init__], so
    construction always succeeds. *)
Definition LineItem_init (sku : string) (unit_price : Money) (quantity : Z)
  : result LineItem :=
  Return {| sku := sku; unit_price := unit_price; quantity := quantity |}.

Definition extended (self : LineItem) : result Money :=
  times (unit_price self) (PyInt (quantity self)).

Record Cart : Type :=
  { items : list LineItem; discount_rate : option float }.

Record Receipt : Type :=
  { total : Money; shipping_label : string }.

(** ** Collaborators and effects *)

(** A call made by the orchestrator to one of its collaborators. *)
Inductive call : Type :=
| CallSurcharge
| CallApply (pre_tax : Money)
| CallCharge (card_number : option string) (amount : Money)
| CallLabel (to : Address).

Section Effects.

(** Whatever state the collaborators keep. *)
Variable W : Type.

(** An operation of a collaborator: it may read and change the world and
    may raise. *)
Definition Eff (A : Type) : Type := W -> result A * W.

Definition pure {A : Type} (a : A) : Eff A := fun w => (Return a, w).
Definition throw {A : Type} (e : exception) : Eff A := fun w => (Raise e, w).

Record ShippingOption : Type :=
  { label : Address -> Eff string;
    surcharge : Eff Money }.

Record PaymentProcessor : Type :=
  { charge : option string -> Money -> Eff unit }.

Record TaxPolicy : Type :=
  { apply : Money -> Eff Money }.

(** The orchestrator runs over the collaborators' world, the history of
    the calls it made to them (oldest first) and the lines it printed. *)
Record mstate : Type :=
  { world : W; calls : list call; stdout : list string }.

Definition M (A : Type) : Type := mstate -> result A * mstate.

Definition ret {A : Type} (a : A) : M A := fun s => (Return a, s).

Definition bind {A B : Type} (m : M A) (k : A -> M B) : M B :=
  fun s =>
    match m s with
    | (Return a, s') => k a s'
    | (Raise e, s') => (Raise e, s')
    end.

(** A pure step of the orchestrator that may raise. *)
Definition lift {A : Type} (r : result A) : M A := fun s => (r, s).

(** Calling a collaborator: the call is entered in the history, then the
    operation runs on the world. *)
Definition invoke {A : Type} (c : call) (op : Eff A) : M A :=
  fun s =>
    let (r, w) := op (world s) in
    (r, {| world := w; calls := calls s ++ [c]; stdout := stdout s |}).

Definition print (line : string) : M unit :=
  fun s =>
    (Return tt,
     {| world := world s; calls := calls s; stdout := stdout s ++ [line] |}).

End Effects.

Arguments pure {W A} a.
Arguments throw {W A} e.
Arguments ret {W A} a.
Arguments bind {W A B} m k.
Arguments lift {W A} r.
Arguments invoke {W A} c op.
Arguments print {W} line.

Declare Scope checkout_scope.
Delimit Scope checkout_scope with checkout.
Notation "x <- m ;; k" := (bind m (fun x => k))
  (at level 100, m at next level, right associativity) : checkout_scope.
Notation "m ;; k" := (bind m (fun _ => k))
  (at level 100, right associativity) : checkout_scope.

(** ** Shipping (strategy) *)

Definition StandardShipping {W : Type} : ShippingOption W :=
  {| label := fun to => pure ("STD-" ++ zip to);
     surcharge := pure {| amount := Float.lit 0.00 |} |}.

Definition ExpressShipping {W : Type} : ShippingOption W :=
  {| label := fun to => pure ("EXP-" ++ zip to);
     surcharge := pure {| amount := Float.lit 9.99 |} |}.

(** ** Payment *)

Definition SimpleCardProcessor {W : Type} : PaymentProcessor W :=
  {| charge := fun card_number amount =>
       match card_number with
       | None => throw (PaymentDeclined "Invalid card")
       | Some c =>
           if negb (str_truthy card_number) || (String.length c <? 12)%nat
           then throw (PaymentDeclined "Invalid card")
           else if negb (startswith c "4" || startswith c "5")
           then throw (PaymentDeclined "Unsupported card")
           else pure tt
       end |}.

(** ** Tax policy *)

Module NewYorkTax.
Definition RATE : float := Float.lit 0.08875.
End NewYorkTax.

Definition NewYorkTax {W : Type} : TaxPolicy W :=
  {| apply := fun pre_tax w =>
       (times pre_tax (PyFloat (Float.add Float.one NewYorkTax.RATE)), w) |}.

(** ** Orchestrator *)

(** [n / d] rounded to the nearest integer, ties to even ([d] positive). *)
Definition round_half_even (n d : Z) : Z :=
  let q := n / d in
  match 2 * (n mod d) ?= d with
  | Lt => q
  | Gt => q + 1
  | Eq => if Z.even q then q else q + 1
  end.

Definition str_of_Z (n : Z) : string :=
  NilZero.string_of_uint (N.to_uint (Z.to_N n)).

(** [f"{x:.2f}"]: the exact value of the double, correctly rounded to two
    decimals. *)
Definition format_2f (x : float) : string :=
  match x with
  | S754_nan => "nan"
  | S754_infinity s => if s then "-inf" else "inf"
  | S754_zero s => if s then "-0.00" else "0.00"
  | S754_finite s m e =>
      let cents :=
        match e with
        | Zneg p => round_half_even (100 * Zpos m) (2 ^ Zpos p)
        | _ => 100 * Zpos m * 2 ^ e
        end in
      let frac := cents mod 100 in
      (if s then "-" else "") ++ str_of_Z (cents / 100) ++ "." ++
      (if (frac <? 10)%Z then "0" else "") ++ str_of_Z frac
  end.

(** The f-string of [_log]. *)
Definition log_line (user_id : string) (total : Money) (label : string)
  : string :=
  "USER=" ++ user_id ++ " TOTAL=" ++ format_2f (amount total) ++
  " LABEL=" ++ label.

Section Orchestrator.

Variable W : Type.

Record CheckoutService : Type :=
  { _payments : PaymentProcessor W;
    _tax : TaxPolicy W }.

Fixpoint _subtotal_loop (items : list LineItem) (total : Money)
  : result Money :=
  match items with
  | [] => Return total
  | li :: rest =>
      rbind (extended li) (fun e => _subtotal_loop rest (plus total e))
  end.

Definition _subtotal (items : list LineItem) : result Money :=
  _subtotal_loop items {| amount := Float.lit 0.0 |}.

Definition _apply_discount (amount : Money) (rate : option float)
  : result Money :=
  match rate with
  | None => Return amount
  | Some r =>
      if negb (Float.truthy r) || Float.leb r Float.zero
      then Return amount
      else rbind (times amount (PyFloat r)) (fun d =>
           Return (minus amount d))
  end.

Definition _log (user_id : string) (total : Money) (label : string)
  : M W unit :=
  print (log_line user_id total label).

Local Open Scope checkout_scope.

Definition checkout (self : CheckoutService) (user_id : string)
    (cart : Cart) (shipping : ShippingOption W) (ship_to : Address)
    (card_number : option string) : M W Receipt :=
  subtotal <- lift (_subtotal (items cart)) ;;
  discounted <- lift (_apply_discount subtotal (discount_rate cart)) ;;
  fee <- invoke CallSurcharge (surcharge shipping) ;;
  let with_shipping := plus discounted fee in
  total <- invoke (CallApply with_shipping)
                  (apply (_tax self) with_shipping) ;;
  invoke (CallCharge card_number total)
         (charge (_payments self) card_number total) ;;
  label <- invoke (CallLabel ship_to) (label shipping ship_to) ;;
  _log user_id total label ;;
  ret {| total := total; shipping_label := label |}.

End Orchestrator.

(** ** Example usage: the script at the end of the source *)

Definition example_cart : Cart :=
  {| items :=
       [ {| sku := "SKU-1"; unit_price := {| amount := Float.lit 12.50 |};
            quantity := 2 |};
         {| sku := "SKU-2"; unit_price := {| amount := Float.lit 5.00 |};
            quantity := 3 |} ];
     discount_rate := Some (Float.lit 0.10) |}.

Definition example_service : CheckoutService unit :=
  {| _payments := SimpleCardProcessor; _tax := NewYorkTax |}.

Definition example_address : Address :=
  {| street := "123 Main St"; city := "NYC"; state := "NY"; zip := "10001" |}.

Definition example_card : option string := Some "4111111111111111".

Definition start : mstate unit := {| world := tt; calls := []; stdout := [] |}.

(** The script, up to the receipt: build the address, then check out. *)
Definition main : result Receipt * mstate unit :=
  bind (lift (Address_init "123 Main St" "NYC" "NY" (Some "10001")))
       (fun ship_to =>
          checkout example_service "u-123" example_cart ExpressShipping
                   ship_to example_card)
       start.

(** A processor stub that approves every charge and keeps no state. *)
Definition AlwaysApprove {W : Type} : PaymentProcessor W :=
  {| charge := fun _ _ => pure tt |}.

Definition approving_service : CheckoutService unit :=
  {| _payments := AlwaysApprove; _tax := NewYorkTax |}.

(** ** Notions used by the specification *)

(** An operation is stateless when its outcome does not depend on the world
    and it leaves the world as it found it. *)
Definition stateless {W A : Type} (op : Eff W A) : Prop :=
  exists r, forall w, op w = (r, w).

Definition stateless_shipping {W : Type} (sh : ShippingOption W) : Prop :=
  stateless (surcharge sh) /\ forall to, stateless (label sh to).

Definition stateless_tax {W : Type} (tax : TaxPolicy W) : Prop :=
  forall pre_tax, stateless (apply tax pre_tax).

Definition always_approves {W : Type} (p : PaymentProcessor W) : Prop :=
  forall card_number amount w, charge p card_number amount w = (Return tt, w).

(** The card number is missing or has fewer than [n] characters. *)
Definition absent_or_shorter (n : nat) (s : option string) : Prop :=
  s = None \/ exists c, s = Some c /\ (String.length c < n)%nat.

(** The card number starts with "4" or with "5". *)
Definition accepted_prefix (c : string) : Prop :=
  exists rest, c = "4" ++ rest \/ c = "5" ++ rest.

(** The rate is a fraction in (0, 1]. *)
Definition proper_rate (r : float) : Prop :=
  Float.ltb Float.zero r = true /\ Float.leb r Float.one = true.

(** The rate is missing, zero or negative. *)
Definition no_rate (rate : option float) : Prop :=
  rate = None \/
  exists r, rate = Some r /\
            (Float.eqb r Float.zero = true \/ Float.ltb r Float.zero = true).

Definition zero_money : Money := {| amount := Float.zero |}.

(** unit_price × quantity, with the quantity converted as IEEE does. *)
Definition price_times_quantity (li : LineItem) : Money :=
  {| amount := Float.mul (amount (unit_price li)) (Float.of_Z (quantity li)) |}.

(** Σ of the first [n] terms, added in order starting from zero. *)
Fixpoint sigma (n : nat) (term : nat -> Money) : Money :=
  match n with
  | O => zero_money
  | S k => plus (sigma k term) (term k)
  end.

(** The spec's subtotal: Σ (unit_price × quantity) over the line items in
    cart order. *)
Definition sum_in_cart_order (items : list LineItem) : Money :=
  sigma (List.length items)
        (fun i => match nth_error items i with
                  | Some li => price_times_quantity li
                  | None => zero_money
                  end).

(** The quantity is small enough to convert to a float: its magnitude is
    below 2^1024 − 2^970. *)
Definition convertible (li : LineItem) : Prop :=
  Z.abs (quantity li) < Float.int_overflow_bound.

(** A zero or negative amount: [x <= 0]. *)
Definition zero_or_negative (m : Money) : Prop :=
  Float.leb (amount m) Float.zero = true.

(** A unit price that is finite and not negative. *)
Definition finite_nonnegative (m : Money) : Prop :=
  Float.leb Float.zero (amount m) = true /\
  Float.ltb (amount m) (S754_infinity false) = true.

(** [x] is a zero, a finite number or an infinity of sign [sx] (not NaN). *)
Definition has_sign (sx : bool) (x : float) : Prop :=
  match x with
  | S754_zero s | S754_infinity s | S754_finite s _ _ => s = sx
  | S754_nan => False
  end.

(** The cart [items] followed by one more line item. *)
Definition followed_by (items : list LineItem) (li : LineItem)
  : list LineItem :=
  (items ++ [li])%list.

(** The calls that are charges. *)
Definition is_charge (c : call) : bool :=
  match c with
  | CallCharge _ _ => true
  | _ => false
  end.

(** The calls of a complete checkout, in the order the source makes them. *)
Definition planned_calls (with_shipping total : Money)
    (card_number : option string) (ship_to : Address) : list call :=
  [CallSurcharge; CallApply with_shipping; CallCharge card_number total;
   CallLabel ship_to].


(** A cart whose only quantity is too large for a float. *)
Definition oversized_cart : Cart :=
  {| items := [ {| sku := "SKU-1";
                   unit_price := {| amount := Float.lit 1.0 |};
                   quantity := Float.int_overflow_bound |} ];
     discount_rate := None |}.

(** The values that are IEEE doubles: zeros, infinities, NaN, and the
    finite numbers with a canonical mantissa and exponent. *)
Definition is_double (x : float) : Prop :=
  valid_binary Float.prec Float.emax x = true.

(** A double that is neither an infinity nor NaN. *)
Definition is_finite (x : float) : Prop :=
  match x with
  | S754_zero _ | S754_finite _ _ _ => True
  | S754_infinity _ | S754_nan => False
  end.

(** A double that is a number: anything but NaN. *)
Definition is_number (x : float) : Prop :=
  match x with
  | S754_nan => False
  | _ => True
  end.

(** The exact value of a finite double, as a rational: ±m × 2^e (and 0
    for the zeros; infinities and NaN have no value and are given 0). *)
Definition exact (x : float) : Q :=
  match x with
  | S754_finite s m e => (inject_Z (cond_Zopp s (Z.pos m)) * 2 ^ e)%Q
  | _ => 0%Q
  end.


(** [0 <= x]: zero or positive, infinity included, NaN excluded. *)
Definition not_negative (x : float) : Prop :=
  Float.leb Float.zero x = true.

(** A line item as a shop expects it: a finite unit price that is not
    negative, and a quantity that is not negative and small enough to
    convert to a float. *)
Definition ordinary_item (li : LineItem) : Prop :=
  finite_nonnegative (unit_price li) /\
  0 <= quantity li < Float.int_overflow_bound.

(** One of the two shipping options of the source. *)
Definition reference_shipping {W : Type} (sh : ShippingOption W) : Prop :=
  sh = StandardShipping \/ sh = ExpressShipping.

(** The example cart without its discount. *)
Definition undiscounted_cart : Cart :=
  {| items := items example_cart; discount_rate := None |}.

(** ** The original flow: [proc] of [before.py]

    [proc] takes the cart, the address and the item as dicts.  They are
    embedded at the types of the sample call: an item holds an optional
    float under "p" and an optional int under "q", a cart an optional list
    of items under "items" and an optional float under "disc", an address is
    [None] or a dict from strings to strings, [f] is a bool, [st] a string,
    [uid] an int and [cc] [None] or a string. *)

Module Before.

Inductive error : Type :=
| Exception (msg : string)
| OverflowError (msg : string)
| KeyError (key : string).

Inductive outcome (A : Type) : Type :=
| Returns (a : A)
| Raises (e : error).
Arguments Returns {A} a.
Arguments Raises {A} e.

Record item : Type := { p : option float; q : option Z }.

Record cart : Type := { c_items : option (list item); disc : option float }.

(** A dict with string keys and string values, as a list of its entries. *)
Definition dict : Type := list (string * string).

(** [d.get(key)]: the value under [key], if any. *)
Fixpoint get (d : dict) (key : string) : option string :=
  match d with
  | [] => None
  | (k, v) :: rest => if String.eqb k key then Some v else get rest key
  end.

(** [d.get(key, default)] *)
Definition get_default (d : dict) (key default : string) : string :=
  match get d key with
  | Some v => v
  | None => default
  end.

(** An argument of [print]. *)
Inductive obj : Type :=
| Str (s : string)
| Int (n : Z)
| Flt (x : float).

(** The loop over the items: [t += float(it.get("p", 0.0)) *
    int(it.get("q", 0))]. *)
Fixpoint total_loop (itms : list item) (t : float) : outcome float :=
  match itms with
  | [] => Returns t
  | it :: rest =>
      let price := match p it with Some x => x | None => Float.lit 0.0 end in
      let qty := match q it with Some n => n | None => 0 end in
      match Float.of_int qty with
      | Some y => total_loop rest (Float.add t (Float.mul price y))
      | None => Raises (OverflowError "int too large to convert to float")
      end
  end.

(** [proc(uid, c, f, st, addr, cc)]: what it returns or raises, and the
    argument lists of its calls to [print]. *)
Definition proc (uid : Z) (c : cart) (f : bool) (st : string)
    (addr : option dict) (cc : option string)
  : outcome number * list (list obj) :=
  let itms := match c_items c with Some l => l | None => [] end in
  match total_loop itms (Float.lit 0.0) with
  | Raises e => (Raises e, [])
  | Returns t =>
      let t := match disc c with
               | Some d => Float.sub t (Float.mul t d)
               | None => t
               end in
      let t := if f then Float.add t (Float.lit 9.99) else t in
      let t := Float.mul t (Float.lit 1.08875) in
      match addr with
      | None => (Raises (Exception "bad addr"), [])
      | Some a =>
          if match a with [] => true | _ :: _ => false end
             || (String.length (get_default a "zip" "") <? 5)%nat
          then (Raises (Exception "bad addr"), [])
          else
            let sp := if String.eqb st "std" then 1
                      else if String.eqb st "xp" then 2 else 0 in
            match cc with
            | None => (Returns (PyInt (-1)), [])
            | Some card =>
                if negb (str_truthy cc) || (String.length card <? 12)%nat
                then (Returns (PyInt (-1)), [])
                else
                  let ok := startswith card "4" || startswith card "5" in
                  if negb ok then (Returns (PyInt (-2)), [])
                  else
                    match get a "zip" with
                    | None => (Raises (KeyError "zip"), [])
                    | Some z =>
                        let label :=
                          if sp =? 1 then "STD-" ++ z
                          else if sp =? 2 then "EXP-" ++ z
                          else "UNK-" ++ z in
                        (Returns (PyFloat t),
                         [[Str "UID="; Int uid; Str "TOTAL="; Flt t;
                           Str "LABEL="; Str label]])
                    end
            end
      end
  end.

(** The sample call at the end of the file. *)
Definition sample_cart : cart :=
  {| c_items := Some [ {| p := Some (Float.lit 19.99); q := Some 2 |};
                       {| p := Some (Float.lit 5.49); q := Some 4 |} ];
     disc := Some (Float.lit 0.1) |}.

Definition sample_address : dict := [("zip", "12345")].

Definition sample_call : outcome number * list (list obj) :=
  proc 1 sample_cart true "xp" (Some sample_address)
       (Some "4111111111111111").

End Before.

(** *** From the objects of [after.py] to the dicts of [before.py] *)

Definition item_of (li : LineItem) : Before.item :=
  {| Before.p := Some (amount (unit_price li));
     Before.q := Some (quantity li) |}.

Definition cart_of (c : Cart) : Before.cart :=
  {| Before.c_items := Some (map item_of (items c));
     Before.disc := discount_rate c |}.

Definition dict_of (a : Address) : Before.dict :=
  [("street", street a); ("city", city a); ("state", state a);
   ("zip", zip a)].

(** The outcome of [checkout] that an outcome of [proc] stands for: the
    total and the printed label as a Receipt, the error codes -1 and -2 as
    the two declined payments, an overflow as itself. *)
Definition refactored (r : Before.outcome number * list (list Before.obj))
  : option (result Receipt) :=
  match r with
  | (Before.Returns (PyFloat t),
     [[_; _; _; _; _; Before.Str label]]) =>
      Some (Return {| total := {| amount := t |}; shipping_label := label |})
  | (Before.Returns (PyInt (-1)), []) =>
      Some (Raise (PaymentDeclined "Invalid card"))
  | (Before.Returns (PyInt (-2)), []) =>
      Some (Raise (PaymentDeclined "Unsupported card"))
  | (Before.Raises (Before.OverflowError msg), []) =>
      Some (Raise (OverflowError msg))
  | _ => None
  end.

(** The service of the script, over any world. *)
Definition reference_service {W : Type} : CheckoutService W :=
  {| _payments := SimpleCardProcessor; _tax := NewYorkTax |}.

(** A rate that both flows apply: absent, or positive. *)
Definition rate_taken (rate : option float) : Prop :=
  rate = None \/ exists r, rate = Some r /\ Float.ltb Float.zero r = true.

(** The address that [proc] rejects: [None], an empty dict, or a zip
    (taken as empty when missing) of fewer than 5 characters. *)
Definition bad_addr (addr : option Before.dict) : Prop :=
  addr = None \/ addr = Some [] \/
  exists a, addr = Some a /\
            (String.length (Before.get_default a "zip" "") < 5)%nat.

(** The amount after the subtotal and discount steps of [checkout]. *)
Definition discounted_amount (cart : Cart) : result Money :=
  rbind (_subtotal (items cart)) (fun subtotal =>
  _apply_discount subtotal (discount_rate cart)).

(** The items [proc] loops over: [c.get("items", [])]. *)
Definition proc_items (c : Before.cart) : list Before.item :=
  match Before.c_items c with
  | Some l => l
  | None => []
  end.

(** The total [proc] makes of the sum [t0] of its items: the discount when
    the cart has one, the surcharge when [f] is set, then the tax. *)
Definition proc_total (c : Before.cart) (f : bool) (t0 : float) : float :=
  let t := match Before.disc c with
           | Some d => Float.sub t0 (Float.mul t0 d)
           | None => t0
           end in
  let t := if f then Float.add t (Float.lit 9.99) else t in
  Float.mul t (Float.lit 1.08875).

(** The label [proc] makes for the shipping type [st] and the zip [z]. *)
Definition proc_label (st z : string) : string :=
  if String.eqb st "std" then "STD-" ++ z
  else if String.eqb st "xp" then "EXP-" ++ z
  else "UNK-" ++ z.

(** The one line [proc] prints. *)
Definition proc_line (uid : Z) (t : float) (label : string)
  : list Before.obj :=
  [Before.Str "UID="; Before.Int uid; Before.Str "TOTAL="; Before.Flt t;
   Before.Str "LABEL="; Before.Str label].

(** The three ways [proc] ends once the total is computed and the address
    accepted. *)
Definition proc_ends (uid : Z) (c : Before.cart) (f : bool) (st : string)
    (a : Before.dict) (cc : option string) (t0 : float) : Prop :=
  (absent_or_shorter 12 cc /\
   Before.proc uid c f st (Some a) cc
     = (Before.Returns (PyInt (-1)), [])) \/
  (exists card, cc = Some card /\ (12 <= String.length card)%nat /\
     ~ accepted_prefix card /\
     Before.proc uid c f st (Some a) cc
       = (Before.Returns (PyInt (-2)), [])) \/
  (exists card z, cc = Some card /\ (12 <= String.length card)%nat /\
     accepted_prefix card /\ Before.get a "zip" = Some z /\
     Before.proc uid c f st (Some a) cc
       = (Before.Returns (PyFloat (proc_total c f t0)),
          [proc_line uid (proc_total c f t0) (proc_label st z)])).

(** What the reference processor answers for a card number (it looks at
    nothing else). *)
Definition card_verdict (cc : option string) : result unit :=
  fst (charge SimpleCardProcessor cc zero_money tt).

(** * Properties *)

(** ** Strings *)

Lemma startswith_char (a : ascii) (c : string) :
  startswith c (String a EmptyString) = true <->
  exists rest, c = String a rest.
Proof.
  unfold startswith. destruct c as [|b rest]; simpl.
  - split; [discriminate | intros [r Hr]; discriminate].
  - destruct (ascii_dec a b) as [->|Hne].
    + split; [intros _; now exists rest | intros _; now destruct rest].
    + split; [discriminate | intros [r Hr]; congruence].
Qed.

Lemma accepted_prefix_iff (c : string) :
  startswith c "4" || startswith c "5" = true <-> accepted_prefix c.
Proof.
  unfold accepted_prefix. rewrite orb_true_iff, !startswith_char. simpl.
  split.
  - intros [[r ->]|[r ->]]; exists r; auto.
  - intros [r [->| ->]]; [left|right]; now exists r.
Qed.

Lemma str_truthy_long (n : nat) (c : string) :
  (String.length c <? S n)%nat = false -> str_truthy (Some c) = true.
Proof. destruct c; simpl; [discriminate | reflexivity]. Qed.

(** ** The reference payment processor *)

(** The three outcomes of [SimpleCardProcessor.charge], by the guard taken. *)
Lemma charge_cases (W : Type) (card_number : option string) (amount : Money)
    (w : W) :
  (absent_or_shorter 12 card_number /\
   charge SimpleCardProcessor card_number amount w =
     (Raise (PaymentDeclined "Invalid card"), w)) \/
  (exists c, card_number = Some c /\ (12 <= String.length c)%nat /\
     ((~ accepted_prefix c /\
       charge SimpleCardProcessor card_number amount w =
         (Raise (PaymentDeclined "Unsupported card"), w)) \/
      (accepted_prefix c /\
       charge SimpleCardProcessor card_number amount w = (Return tt, w)))).
Proof.
  destruct card_number as [c|]; unfold SimpleCardProcessor; cbn [charge].
  - destruct (String.length c <? 12)%nat eqn:Hlen.
    + left. split.
      * right. exists c. split; [reflexivity | now apply Nat.ltb_lt].
      * now rewrite orb_true_r.
    + right. exists c. split; [reflexivity|].
      apply Nat.ltb_ge in Hlen as Hge. split; [exact Hge|].
      rewrite (str_truthy_long _ _ Hlen). cbn [negb orb].
      destruct (startswith c "4" || startswith c "5") eqn:Hp; simpl.
      * right. split; [now apply accepted_prefix_iff | reflexivity].
      * left. split; [|reflexivity].
        intros Ha. apply accepted_prefix_iff in Ha. congruence.
  - left. split; [now left | reflexivity].
Qed.

Lemma absent_or_shorter_not_long (n : nat) (c : string) :
  absent_or_shorter n (Some c) -> (n <= String.length c)%nat -> False.
Proof.
  intros [H|[c' [H Hlt]]] Hge; [discriminate|].
  injection H as <-. lia.
Qed.

(** C3 (amended): for every amount, [SimpleCardProcessor.charge] raises
    PaymentDeclined("Invalid card") exactly when the card number is absent
    or shorter than 12 characters, raises PaymentDeclined("Unsupported card")
    exactly when the card number has at least 12 characters and starts with
    neither "4" nor "5", and succeeds exactly in the remaining case; it
    never changes the world. *)
Theorem charge_outcome_by_card_number (W : Type)
    (card_number : option string) (amount : Money) (w : W) :
  snd (charge SimpleCardProcessor card_number amount w) = w /\
  (fst (charge SimpleCardProcessor card_number amount w)
     = Raise (PaymentDeclined "Invalid card")
   <-> absent_or_shorter 12 card_number) /\
  (fst (charge SimpleCardProcessor card_number amount w)
     = Raise (PaymentDeclined "Unsupported card")
   <-> exists c, card_number = Some c /\ (12 <= String.length c)%nat /\
                 ~ accepted_prefix c) /\
  (fst (charge SimpleCardProcessor card_number amount w) = Return tt
   <-> exists c, card_number = Some c /\ (12 <= String.length c)%nat /\
                 accepted_prefix c).
Proof.
  destruct (charge_cases card_number amount w)
    as [[Ha ->]|[c [-> [Hlen [[Hn ->]|[Hp ->]]]]]]; cbn [fst snd].
  - split; [reflexivity|]. split; [tauto|]. split.
    + split; [discriminate|]. intros [c [-> [Hlen _]]].
      destruct (absent_or_shorter_not_long Ha Hlen).
    + split; [discriminate|]. intros [c [-> [Hlen _]]].
      destruct (absent_or_shorter_not_long Ha Hlen).
  - split; [reflexivity|]. split; [|split].
    + split; [discriminate|]. intros Ha.
      destruct (absent_or_shorter_not_long Ha Hlen).
    + split; [intros _; now exists c | reflexivity].
    + split; [discriminate|]. intros [c' [Hc [_ Hp]]].
      injection Hc as <-. contradiction.
  - split; [reflexivity|]. split; [|split].
    + split; [discriminate|]. intros Ha.
      destruct (absent_or_shorter_not_long Ha Hlen).
    + split; [discriminate|]. intros [c' [Hc [_ Hn]]].
      injection Hc as <-. contradiction.
    + split; [intros _; now exists c | reflexivity].
Qed.

(** C3, as stated, fails on the reasons: a three character card number is
    declined with the reason "Invalid card", not "invalid card", and a
    sixteen digit number starting with "6" with the reason "Unsupported
    card", not "unsupported card network". *)
Lemma charge_reason_counterexample :
  (absent_or_shorter 12 (Some "123") /\
   fst (charge SimpleCardProcessor (Some "123")
               {| amount := Float.lit 50.0 |} tt)
     = Raise (PaymentDeclined "Invalid card") /\
   String.eqb "Invalid card" "invalid card" = false) /\
  ((12 <= String.length "6011000000000000")%nat /\
   fst (charge SimpleCardProcessor (Some "6011000000000000")
               {| amount := Float.lit 50.0 |} tt)
     = Raise (PaymentDeclined "Unsupported card") /\
   String.eqb "Unsupported card" "unsupported card network" = false).
Proof.
  split; split.
  - right. exists "123". split; [reflexivity | simpl; lia].
  - split; reflexivity.
  - simpl; lia.
  - split; reflexivity.
Qed.

(** C9: the outcome of [SimpleCardProcessor.charge], decline reason
    included, is the same for any two amounts charged to the same card
    number: the amount is never inspected. *)
Theorem charge_ignores_amount (W : Type) (card_number : option string)
    (amount1 amount2 : Money) (w : W) :
  charge SimpleCardProcessor card_number amount1 w =
  charge SimpleCardProcessor card_number amount2 w.
Proof.
  (* the record's [charge] never mentions its [amount] argument *)
  unfold SimpleCardProcessor. cbn [charge].
  destruct card_number as [c|]; reflexivity.
Qed.

(** ** Running the orchestrator's monad *)

Section Running.

Variable W : Type.

Lemma bind_returns (A B : Type) (m : M W A) (k : A -> M W B) s a s1 :
  m s = (Return a, s1) -> bind m k s = k a s1.
Proof. unfold bind. now intros ->. Qed.

Lemma bind_raises (A B : Type) (m : M W A) (k : A -> M W B) s e s1 :
  m s = (Raise e, s1) -> bind m k s = (Raise e, s1).
Proof. unfold bind. now intros ->. Qed.

Lemma bind_Return_inv (A B : Type) (m : M W A) (k : A -> M W B) s b s' :
  bind m k s = (Return b, s') ->
  exists a s1, m s = (Return a, s1) /\ k a s1 = (Return b, s').
Proof.
  unfold bind. destruct (m s) as [[a|e] s1]; [|discriminate].
  intros H. now exists a, s1.
Qed.

Lemma bind_Raise_inv (A B : Type) (m : M W A) (k : A -> M W B) s e s' :
  bind m k s = (Raise e, s') ->
  m s = (Raise e, s') \/
  exists a s1, m s = (Return a, s1) /\ k a s1 = (Raise e, s').
Proof.
  unfold bind. destruct (m s) as [[a|e0] s1]; intros H.
  - right. now exists a, s1.
  - left. injection H as -> ->. reflexivity.
Qed.

Lemma lift_inv (A : Type) (r r' : result A) (s s' : mstate W) :
  lift r s = (r', s') -> r = r' /\ s' = s.
Proof. unfold lift. intros H. injection H as <- <-. now split. Qed.

Lemma invoke_runs (A : Type) (c : call) (op : Eff W A) s r w :
  op (world s) = (r, w) ->
  invoke c op s =
    (r, {| world := w; calls := calls s ++ [c]; stdout := stdout s |}).
Proof. unfold invoke. now intros ->. Qed.

Lemma invoke_inv (A : Type) (c : call) (op : Eff W A) s r s' :
  invoke c op s = (r, s') ->
  exists w, op (world s) = (r, w) /\
            s' = {| world := w; calls := calls s ++ [c]; stdout := stdout s |}.
Proof.
  unfold invoke. destruct (op (world s)) as [r0 w]. intros H.
  injection H as <- <-. now exists w.
Qed.

(** A successful checkout went through every step, in order. *)
Lemma checkout_Return_inv (self : CheckoutService W) user_id cart shipping
    ship_to card_number s receipt s' :
  checkout self user_id cart shipping ship_to card_number s
    = (Return receipt, s') ->
  exists subtotal discounted fee w1 w2 w3 w4,
    _subtotal (items cart) = Return subtotal /\
    _apply_discount subtotal (discount_rate cart) = Return discounted /\
    surcharge shipping (world s) = (Return fee, w1) /\
    apply (_tax self) (plus discounted fee) w1 = (Return (total receipt), w2) /\
    charge (_payments self) card_number (total receipt) w2 = (Return tt, w3) /\
    label shipping ship_to w3 = (Return (shipping_label receipt), w4) /\
    s' = {| world := w4;
            calls := calls s ++
                     [CallSurcharge; CallApply (plus discounted fee);
                      CallCharge card_number (total receipt);
                      CallLabel ship_to];
            stdout := stdout s ++
                      [log_line user_id (total receipt)
                                (shipping_label receipt)] |}.
Proof.
  unfold checkout. intros H.
  apply bind_Return_inv in H as (subtotal & s1 & H1 & H).
  apply lift_inv in H1 as [H1 ->].
  apply bind_Return_inv in H as (discounted & s2 & H2 & H).
  apply lift_inv in H2 as [H2 ->].
  apply bind_Return_inv in H as (fee & s3 & H3 & H).
  apply invoke_inv in H3 as (w1 & H3 & ->).
  apply bind_Return_inv in H as (tot & s4 & H4 & H).
  apply invoke_inv in H4 as (w2 & H4 & ->).
  apply bind_Return_inv in H as ([] & s5 & H5 & H).
  apply invoke_inv in H5 as (w3 & H5 & ->).
  apply bind_Return_inv in H as (lbl & s6 & H6 & H).
  apply invoke_inv in H6 as (w4 & H6 & ->).
  apply bind_Return_inv in H as ([] & s7 & H7 & H).
  unfold _log, print in H7. injection H7 as <-.
  unfold ret in H. injection H as <- <-.
  cbn [world calls stdout total shipping_label] in *.
  exists subtotal, discounted, fee, w1, w2, w3, w4.
  repeat (split; [assumption|]).
  unfold log_line. now rewrite <- !app_assoc.
Qed.

End Running.

(** ** The total on the receipt *)

(** C1: whenever checkout returns a Receipt (so the authorization
    succeeded), for every cart, shipping option and tax policy, the total on
    it is what the tax policy's [apply] returned for
    [discounted + shipping.surcharge()], where [discounted] is the subtotal
    after the discount step; that total is also the amount charged. *)
Theorem receipt_total_is_tax_on_discounted_plus_shipping (W : Type)
    (self : CheckoutService W) (user_id : string) (cart : Cart)
    (shipping : ShippingOption W) (ship_to : Address)
    (card_number : option string) (s s' : mstate W) (receipt : Receipt) :
  checkout self user_id cart shipping ship_to card_number s
    = (Return receipt, s') ->
  exists subtotal discounted fee w1 w2 w3,
    _subtotal (items cart) = Return subtotal /\
    _apply_discount subtotal (discount_rate cart) = Return discounted /\
    surcharge shipping (world s) = (Return fee, w1) /\
    apply (_tax self) (plus discounted fee) w1
      = (Return (total receipt), w2) /\
    charge (_payments self) card_number (total receipt) w2 = (Return tt, w3).
Proof.
  intros H.
  apply checkout_Return_inv in H
    as (subtotal & discounted & fee & w1 & w2 & w3 & w4 &
        Hsub & Hdisc & Hfee & Htax & Hpay & _).
  exists subtotal, discounted, fee, w1, w2, w3. auto.
Qed.

Lemma receipt_total_witness :
  exists subtotal discounted fee w1 w2 w3,
    _subtotal (items example_cart) = Return subtotal /\
    _apply_discount subtotal (discount_rate example_cart)
      = Return discounted /\
    surcharge ExpressShipping tt = (Return fee, w1) /\
    apply NewYorkTax (plus discounted fee) w1
      = (Return {| amount := Float.lit 50.07161250000001 |}, w2) /\
    charge SimpleCardProcessor example_card
           {| amount := Float.lit 50.07161250000001 |} w2 = (Return tt, w3).
Proof.
  apply (@receipt_total_is_tax_on_discounted_plus_shipping unit
           example_service "u-123" example_cart ExpressShipping
           example_address example_card start
           {| world := tt;
              calls := [CallSurcharge;
                        CallApply {| amount := Float.lit 45.99 |};
                        CallCharge example_card
                          {| amount := Float.lit 50.07161250000001 |};
                        CallLabel example_address];
              stdout := ["USER=u-123 TOTAL=50.07 LABEL=EXP-10001"] |}
           {| total := {| amount := Float.lit 50.07161250000001 |};
              shipping_label := "EXP-10001" |}).
  vm_compute. reflexivity.
Defined.

(** ** Declined payments *)

(** C5: when the processor declines the charge that checkout makes (the
    steps before it having produced the total), checkout raises that very
    PaymentDeclined, so no Receipt is returned; the world is left as the
    processor left it, nothing is printed, and the calls made are the
    surcharge, the tax and the charge: the shipping option's [label] is
    never called. *)
Theorem declined_payment_propagates_without_label (W : Type)
    (self : CheckoutService W) (user_id : string) (cart : Cart)
    (shipping : ShippingOption W) (ship_to : Address)
    (card_number : option string) (s : mstate W)
    (subtotal discounted fee tot : Money) (w1 w2 w3 : W) (reason : string) :
  _subtotal (items cart) = Return subtotal ->
  _apply_discount subtotal (discount_rate cart) = Return discounted ->
  surcharge shipping (world s) = (Return fee, w1) ->
  apply (_tax self) (plus discounted fee) w1 = (Return tot, w2) ->
  charge (_payments self) card_number tot w2
    = (Raise (PaymentDeclined reason), w3) ->
  exists made,
    checkout self user_id cart shipping ship_to card_number s
      = (Raise (PaymentDeclined reason),
         {| world := w3; calls := calls s ++ made; stdout := stdout s |}) /\
    made = [CallSurcharge; CallApply (plus discounted fee);
            CallCharge card_number tot] /\
    forall to, ~ In (CallLabel to) made.
Proof.
  intros Hsub Hdisc Hfee Htax Hpay.
  eexists. split; [|split; [reflexivity|]].
  - unfold checkout.
    erewrite bind_returns by (unfold lift; rewrite Hsub; reflexivity).
    erewrite bind_returns by (unfold lift; rewrite Hdisc; reflexivity).
    erewrite bind_returns by (apply invoke_runs, Hfee).
    erewrite bind_returns by (apply invoke_runs, Htax).
    erewrite bind_raises by (apply invoke_runs, Hpay).
    cbn [world calls stdout]. now rewrite <- !app_assoc.
  - intros to [H|[H|[H|[]]]]; discriminate.
Qed.

Lemma declined_payment_witness :
  exists made,
    checkout example_service "u-123" example_cart ExpressShipping
             example_address (Some "123") start
      = (Raise (PaymentDeclined "Invalid card"),
         {| world := tt; calls := calls start ++ made;
            stdout := stdout start |}) /\
    made = [CallSurcharge;
            CallApply (plus {| amount := Float.lit 36.0 |}
                            {| amount := Float.lit 9.99 |});
            CallCharge (Some "123")
                       {| amount := Float.lit 50.07161250000001 |}] /\
    forall to, ~ In (CallLabel to) made.
Proof.
  apply (@declined_payment_propagates_without_label unit
           example_service "u-123" example_cart ExpressShipping
           example_address (Some "123") start
           {| amount := Float.lit 40.0 |} {| amount := Float.lit 36.0 |}
           {| amount := Float.lit 9.99 |}
           {| amount := Float.lit 50.07161250000001 |} tt tt tt
           "Invalid card");
    vm_compute; reflexivity.
Defined.

(** ** The example of the source's script *)

(** C2 (amended): with the cart [(12.50, 2), (5.00, 3)], discount rate 0.10,
    Express shipping, the 8.875% tax policy, card "4111111111111111" and
    zip "10001", checkout succeeds: the subtotal is 40.00, the discounted
    amount 36.00, the amount with shipping 45.99, the total
    45.99 × 1.08875 = 50.0716125 (the double 50.07161250000001) and the
    label "EXP-10001". *)
Theorem example_scenario_A :
  Address_init "123 Main St" "NYC" "NY" (Some "10001")
    = Return example_address /\
  _subtotal (items example_cart) = Return {| amount := Float.lit 40.00 |} /\
  _apply_discount {| amount := Float.lit 40.00 |}
                  (discount_rate example_cart)
    = Return {| amount := Float.lit 36.00 |} /\
  plus {| amount := Float.lit 36.00 |} {| amount := Float.lit 9.99 |}
    = {| amount := Float.lit 45.99 |} /\
  Float.add Float.one NewYorkTax.RATE = Float.lit 1.08875 /\
  times {| amount := Float.lit 45.99 |} (PyFloat (Float.lit 1.08875))
    = Return {| amount := Float.lit 50.07161250000001 |} /\
  checkout example_service "u-123" example_cart ExpressShipping
           example_address example_card start
    = (Return {| total := {| amount := Float.lit 50.07161250000001 |};
                 shipping_label := "EXP-10001" |},
       {| world := tt;
          calls := [CallSurcharge;
                    CallApply {| amount := Float.lit 45.99 |};
                    CallCharge example_card
                               {| amount := Float.lit 50.07161250000001 |};
                    CallLabel example_address];
          stdout := ["USER=u-123 TOTAL=50.07 LABEL=EXP-10001"] |}) /\
  fst main = Return {| total := {| amount := Float.lit 50.07161250000001 |};
                       shipping_label := "EXP-10001" |}.
Proof.
  repeat split; vm_compute; reflexivity.
Qed.

(** C2, as stated, fails on the total: the receipt's total is below
    50.0885 (and even below 50.08), so it is not 50.0885.... *)
Lemma example_total_counterexample :
  exists receipt s',
    checkout example_service "u-123" example_cart ExpressShipping
             example_address example_card start = (Return receipt, s') /\
    Float.ltb (amount (total receipt)) (Float.lit 50.0885) = true /\
    Float.ltb (amount (total receipt)) (Float.lit 50.08) = true.
Proof.
  do 2 eexists. split; [vm_compute; reflexivity|].
  split; vm_compute; reflexivity.
Qed.

(** ** The discount step *)

Lemma positive_rate_applies (r : float) :
  Float.ltb Float.zero r = true ->
  negb (Float.truthy r) || Float.leb r Float.zero = false.
Proof.
  destruct r as [s|s| |s m e]; try destruct s; cbn;
    try discriminate; reflexivity.
Qed.

Lemma zero_or_negative_rate_skips (r : float) :
  Float.eqb r Float.zero = true \/ Float.ltb r Float.zero = true ->
  negb (Float.truthy r) || Float.leb r Float.zero = true.
Proof.
  destruct r as [s|s| |s m e]; try destruct s; cbn;
    intros [H|H]; try discriminate; reflexivity.
Qed.

(** ** Addresses *)

Lemma Address_init_cases (a_street a_city a_state : string)
    (a_zip : option string) :
  (absent_or_shorter 5 a_zip /\
   Address_init a_street a_city a_state a_zip
     = Raise (ValueError "Invalid ZIP")) \/
  (exists z, a_zip = Some z /\ (5 <= String.length z)%nat /\
     Address_init a_street a_city a_state a_zip
       = Return {| street := a_street; city := a_city; state := a_state;
                   zip := z |}).
Proof.
  destruct a_zip as [z|]; unfold Address_init.
  - destruct (String.length z <? 5)%nat eqn:Hlen.
    + left. split.
      * right. exists z. split; [reflexivity | now apply Nat.ltb_lt].
      * now rewrite orb_true_r.
    + right. exists z. split; [reflexivity|].
      split; [now apply Nat.ltb_ge|].
      now rewrite (str_truthy_long _ _ Hlen).
  - left. split; [now left | reflexivity].
Qed.

(** checkout looks at the address only by passing it to [label]. *)
Lemma checkout_uses_address_through_label (W : Type)
    (self : CheckoutService W) user_id cart shipping (a1 a2 : Address)
    card_number (s : mstate W) :
  (forall w, label shipping a1 w = label shipping a2 w) ->
  fst (checkout self user_id cart shipping a1 card_number s)
    = fst (checkout self user_id cart shipping a2 card_number s) /\
  world (snd (checkout self user_id cart shipping a1 card_number s))
    = world (snd (checkout self user_id cart shipping a2 card_number s)) /\
  stdout (snd (checkout self user_id cart shipping a1 card_number s))
    = stdout (snd (checkout self user_id cart shipping a2 card_number s)).
Proof.
  intros Hlabel.
  unfold checkout, bind, lift, invoke, _log, print, ret.
  destruct (_subtotal (items cart)) as [subtotal|e]; [|auto].
  destruct (_apply_discount subtotal (discount_rate cart))
    as [discounted|e]; [|auto].
  destruct (surcharge shipping (world s)) as [[fee|e] w1]; [|auto].
  cbn [world calls stdout].
  destruct (apply (_tax self) (plus discounted fee) w1)
    as [[tot|e] w2]; [|auto].
  cbn [world calls stdout].
  destruct (charge (_payments self) card_number tot w2)
    as [[[]|e] w3]; [|auto].
  cbn [world calls stdout]. rewrite Hlabel.
  destruct (label shipping a2 w3) as [[lbl|e] w4]; auto.
Qed.

(** C6: [Address(...)] raises ValueError("Invalid ZIP") exactly when the
    postal code is absent or shorter than 5 characters; an Address that was
    constructed holds the given fields and a postal code of at least 5
    characters; the error is raised by the construction itself, so that
    nothing that needs the address (checkout included) runs or has any
    effect; and checkout never validates the address again: it only hands
    it to the shipping option's [label], so two addresses that [label]
    treats alike give the same outcome, world and output. *)
Theorem address_validated_at_construction_only (a_street a_city a_state : string)
    (a_zip : option string) :
  (Address_init a_street a_city a_state a_zip
     = Raise (ValueError "Invalid ZIP")
   <-> absent_or_shorter 5 a_zip) /\
  (forall a, Address_init a_street a_city a_state a_zip = Return a ->
     a_zip = Some (zip a) /\ (5 <= String.length (zip a))%nat /\
     street a = a_street /\ city a = a_city /\ state a = a_state) /\
  (absent_or_shorter 5 a_zip ->
   forall (W A : Type) (k : Address -> M W A) (s : mstate W),
     bind (lift (Address_init a_street a_city a_state a_zip)) k s
       = (Raise (ValueError "Invalid ZIP"), s)) /\
  (forall (W : Type) (self : CheckoutService W) user_id cart shipping
          (a1 a2 : Address) card_number (s : mstate W),
     (forall w, label shipping a1 w = label shipping a2 w) ->
     fst (checkout self user_id cart shipping a1 card_number s)
       = fst (checkout self user_id cart shipping a2 card_number s) /\
     world (snd (checkout self user_id cart shipping a1 card_number s))
       = world (snd (checkout self user_id cart shipping a2 card_number s)) /\
     stdout (snd (checkout self user_id cart shipping a1 card_number s))
       = stdout (snd (checkout self user_id cart shipping a2 card_number s))).
Proof.
  destruct (Address_init_cases a_street a_city a_state a_zip)
    as [[Hbad Hinit]|[z [-> [Hlen Hinit]]]]; rewrite Hinit.
  - split; [tauto|]. split; [discriminate|]. split; [reflexivity|].
    intros W self user_id cart shipping a1 a2 card_number s Hlabel.
    now apply checkout_uses_address_through_label.
  - split; [|split; [|split]].
    + split; [discriminate|]. intros Hbad.
      destruct (absent_or_shorter_not_long Hbad Hlen).
    + intros a Ha. injection Ha as <-. cbn. auto.
    + intros Hbad. destruct (absent_or_shorter_not_long Hbad Hlen).
    + intros W self user_id cart shipping a1 a2 card_number s Hlabel.
      now apply checkout_uses_address_through_label.
Qed.

Lemma address_validation_witness :
  (Address_init "1 Short St" "NYC" "NY" (Some "123")
     = Raise (ValueError "Invalid ZIP")) /\
  (bind (lift (Address_init "1 Short St" "NYC" "NY" (Some "123")))
        (fun ship_to =>
           checkout example_service "u-123" example_cart ExpressShipping
                    ship_to example_card)
        start
     = (Raise (ValueError "Invalid ZIP"), start)) /\
  (zip example_address = "10001" /\
   (5 <= String.length (zip example_address))%nat).
Proof.
  assert (Hshort : absent_or_shorter 5 (Some "123")).
  { right. exists "123". split; [reflexivity | simpl; lia]. }
  split; [|split].
  - apply (proj1 (address_validated_at_construction_only
                    "1 Short St" "NYC" "NY" (Some "123"))), Hshort.
  - apply (proj1 (proj2 (proj2 (address_validated_at_construction_only
                    "1 Short St" "NYC" "NY" (Some "123")))) Hshort).
  - destruct (proj1 (proj2 (address_validated_at_construction_only
                    "123 Main St" "NYC" "NY" (Some "10001")))
                example_address eq_refl) as (Hz & Hlen & _).
    split; [reflexivity | exact Hlen].
Defined.

(** ** Floating point: signs survive rounding *)

Lemma shr_1_nonneg (mrs : shr_record) :
  0 <= shr_m mrs -> 0 <= shr_m (shr_1 mrs).
Proof.
  destruct mrs as [m r s]. destruct m as [|p|p]; cbn [shr_m]; intros H.
  - cbn. lia.
  - destruct p; cbn; lia.
  - lia.
Qed.

Lemma iter_shr_1_nonneg (p : positive) :
  forall mrs, 0 <= shr_m mrs -> 0 <= shr_m (iter_pos shr_1 p mrs).
Proof.
  induction p as [p IH|p IH|]; intros mrs H; cbn [iter_pos].
  - apply IH, IH, shr_1_nonneg, H.
  - apply IH, IH, H.
  - apply shr_1_nonneg, H.
Qed.

Lemma shr_fexp_nonneg (m e : Z) (l : location) :
  0 <= m -> 0 <= shr_m (fst (shr_fexp Float.prec Float.emax m e l)).
Proof.
  intros H. unfold shr_fexp, shr.
  assert (H0 : 0 <= shr_m (shr_record_of_loc m l))
    by (destruct l as [|[]]; exact H).
  destruct (fexp Float.prec Float.emax (Zdigits2 m + e) - e) as [|p|p];
    cbn [fst]; auto using iter_shr_1_nonneg.
Qed.

Lemma round_nearest_even_nonneg (m : Z) (l : location) :
  0 <= m -> 0 <= round_nearest_even m l.
Proof.
  intros H. destruct l as [|[]]; cbn; try destruct (Z.even m); lia.
Qed.

(** Rounding a non-negative mantissa never gives NaN and keeps the sign. *)
Lemma binary_round_aux_sign (sx : bool) (m e : Z) (l : location) :
  0 <= m -> has_sign sx (binary_round_aux Float.prec Float.emax sx m e l).
Proof.
  intros H. unfold binary_round_aux.
  pose proof (shr_fexp_nonneg e l H) as H1.
  destruct (shr_fexp Float.prec Float.emax m e l) as [mrs' e'].
  cbn [fst] in H1.
  pose proof (shr_fexp_nonneg e' loc_Exact
                (round_nearest_even_nonneg (loc_of_shr_record mrs') H1))
    as H2.
  destruct (shr_fexp Float.prec Float.emax
              (round_nearest_even (shr_m mrs') (loc_of_shr_record mrs'))
              e' loc_Exact) as [mrs'' e''].
  cbn [fst] in H2.
  destruct (shr_m mrs'') as [|p|p].
  - reflexivity.
  - destruct (e'' <=? Float.emax - Float.prec)%Z; reflexivity.
  - lia.
Qed.

Lemma binary_round_sign (sx : bool) (m : positive) (e : Z) :
  has_sign sx (binary_round Float.prec Float.emax sx m e).
Proof.
  unfold binary_round.
  destruct (shl_align m e _) as [mz ez].
  apply binary_round_aux_sign. lia.
Qed.

(** The float of a zero or negative int is +0.0 or has the minus sign. *)
Lemma of_Z_nonpositive (n : Z) :
  n <= 0 -> Float.of_Z n = Float.zero \/ has_sign true (Float.of_Z n).
Proof.
  intros H. unfold Float.of_Z, binary_normalize. destruct n as [|p|p].
  - now left.
  - lia.
  - right. apply binary_round_sign.
Qed.

Lemma of_int_Some (n : Z) (f : float) :
  Float.of_int n = Some f ->
  f = Float.of_Z n /\ forall s, f <> S754_infinity s.
Proof.
  unfold Float.of_int. destruct (Float.of_Z n); intros H;
    try discriminate; injection H as <-; split; try reflexivity;
    intros s0; discriminate.
Qed.

Lemma of_int_convertible (n : Z) :
  Float.of_int n <> None -> Float.of_int n = Some (Float.of_Z n).
Proof.
  intros H. destruct (Float.of_int n) as [f|] eqn:E; [|contradiction].
  now destruct (of_int_Some _ E) as [-> _].
Qed.

(** A finite, non-negative price times a float that is +0.0 or carries
    the minus sign (and is not an infinity) is zero or negative. *)
Lemma mul_nonnegative_by_nonpositive (p f : float) :
  Float.leb Float.zero p = true ->
  Float.ltb p (S754_infinity false) = true ->
  f = Float.zero \/ has_sign true f ->
  (forall s, f <> S754_infinity s) ->
  Float.leb (Float.mul p f) Float.zero = true.
Proof.
  intros Hp Hfin Hf Hninf.
  destruct p as [sp|sp| |sp mp ep]; try destruct sp; try discriminate;
    destruct Hf as [->|Hf]; try reflexivity;
    destruct f as [sf|sf| |sf mf ef]; cbn in Hf; subst;
    try contradiction; try reflexivity;
    try (now destruct (Hninf true)).
  (* finite positive price, finite negative factor *)
  unfold Float.mul, SFmul. cbn [xorb].
  pose proof (@binary_round_aux_sign true (Z.pos (mp * mf)) (ep + ef)
                loc_Exact ltac:(lia)) as Hs.
  destruct (binary_round_aux _ _ _ _ _ _) as [s|s| |s m e];
    cbn in Hs; subst; try contradiction; reflexivity.
Qed.

(** ** Floating point: which ints convert *)

Lemma digits2_pos_bounds (p : positive) :
  2 ^ (Z.pos (digits2_pos p) - 1) <= Z.pos p < 2 ^ Z.pos (digits2_pos p).
Proof.
  induction p as [p IH|p IH|]; cbn [digits2_pos].
  - rewrite Pos2Z.inj_succ, Z.pow_succ_r by lia.
    replace (Z.succ (Z.pos (digits2_pos p)) - 1) with (Z.succ (Z.pos (digits2_pos p) - 1)) by lia.
    rewrite Z.pow_succ_r by lia. lia.
  - rewrite Pos2Z.inj_succ, Z.pow_succ_r by lia.
    replace (Z.succ (Z.pos (digits2_pos p)) - 1) with (Z.succ (Z.pos (digits2_pos p) - 1)) by lia.
    rewrite Z.pow_succ_r by lia. lia.
  - cbn. lia.
Qed.

Lemma digits2_pos_unique (p : positive) (k : Z) :
  2 ^ (k - 1) <= Z.pos p < 2 ^ k -> Z.pos (digits2_pos p) = k.
Proof.
  intros [Hlo Hhi]. pose proof (digits2_pos_bounds p) as [Dlo Dhi].
  assert (0 < k). { destruct (Z_lt_le_dec 0 k); auto. rewrite (Z.pow_neg_r 2 (k-1)) in Hlo by lia.
    destruct (Z.eq_dec k 0). subst. cbn in Hhi. lia. rewrite Z.pow_neg_r in Hhi by lia. lia. }
  assert (Z.pos (digits2_pos p) - 1 < k).
  { apply (Z.pow_lt_mono_r_iff 2); lia. }
  assert (k - 1 < Z.pos (digits2_pos p)).
  { apply (Z.pow_lt_mono_r_iff 2); lia. }
  lia.
Qed.

Lemma iter_pos_nat (A : Type) (f : A -> A) (p : positive) :
  forall x, iter_pos f p x = Nat.iter (Pos.to_nat p) f x.
Proof.
  induction p as [p IH|p IH|]; intros x; cbn [iter_pos].
  - rewrite !IH.
    replace (Pos.to_nat p~1) with (Pos.to_nat p + (Pos.to_nat p + 1))%nat by lia.
    now rewrite !Nat.iter_add.
  - rewrite !IH.
    replace (Pos.to_nat p~0) with (Pos.to_nat p + Pos.to_nat p)%nat by lia.
    now rewrite Nat.iter_add.
  - reflexivity.
Qed.

Lemma shr_1_spec (m : Z) (r s : bool) :
  0 <= m ->
  shr_m (shr_1 (Build_shr_record m r s)) = m / 2 /\
  shr_r (shr_1 (Build_shr_record m r s)) = Z.odd m.
Proof.
  intros H. destruct m as [|p|p]; [now cbn| |lia].
  destruct p as [p|p|]; cbn [shr_1 shr_m shr_r].
  - split. rewrite Pos2Z.inj_xI. rewrite Z.mul_comm, Z.div_add_l by lia. cbn. lia. reflexivity.
  - split. rewrite Pos2Z.inj_xO. rewrite Z.mul_comm, Z.div_mul by lia. reflexivity. reflexivity.
  - now cbn.
Qed.

Lemma iter_shr_1_spec (x : Z) (k : nat) :
  0 <= x ->
  let mrs := Nat.iter (S k) shr_1 (Build_shr_record x false false) in
  shr_m mrs = x / 2 ^ Z.of_nat (S k) /\ shr_r mrs = Z.testbit x (Z.of_nat k).
Proof.
  intros Hx. cbv zeta. induction k as [|k IH].
  - rewrite Nat.iter_succ. change (Nat.iter 0 shr_1 ?a) with a.
    destruct (@shr_1_spec x false false Hx) as [-> ->].
    split; [reflexivity|]. now rewrite Z.bit0_odd.
  - rewrite Nat.iter_succ.
    destruct IH as [IHm _].
    destruct (Nat.iter (S k) shr_1 (Build_shr_record x false false))
      as [m r s].
    cbn [shr_m] in IHm.
    assert (H : 0 <= m) by (subst m; apply Z.div_pos; lia).
    destruct (@shr_1_spec m r s H) as [-> ->]. subst m. split.
    + rewrite Z.div_div by lia. f_equal.
      rewrite (Nat2Z.inj_succ (S k)), Z.pow_succ_r by lia. lia.
    + rewrite Z.testbit_odd, Z.shiftr_div_pow2 by lia. reflexivity.
Qed.

Lemma fexp_eq (e : Z) : fexp Float.prec Float.emax e = Z.max (e - 53) (-1074).
Proof. reflexivity. Qed.

(** A canonical mantissa is rounded to itself. *)
Lemma binary_round_aux_canonical (sx : bool) (m : positive) (e : Z) :
  fexp Float.prec Float.emax (Z.pos (digits2_pos m) + e) = e ->
  binary_round_aux Float.prec Float.emax sx (Z.pos m) e loc_Exact =
  if e <=? Float.emax - Float.prec then S754_finite sx m e else S754_infinity sx.
Proof.
  intros H. unfold binary_round_aux, shr_fexp.
  cbn [Zdigits2 shr_record_of_loc]. rewrite H, Z.sub_diag.
  cbn [shr shr_m loc_of_shr_record round_nearest_even Zdigits2].
  rewrite H, Z.sub_diag. reflexivity.
Qed.

Lemma iter_xO_spec (m k : positive) :
  Z.pos (Pos.iter xO m k) = Z.pos m * 2 ^ Z.pos k.
Proof.
  induction k as [|k IH] using Pos.peano_ind.
  - cbn. lia.
  - rewrite Pos.iter_succ, Pos2Z.inj_xO, IH, Pos2Z.inj_succ, Z.pow_succ_r by lia.
    lia.
Qed.

(** Up to 53 bits: the conversion is exact and finite. *)
Lemma binary_round_small (sx : bool) (m : positive) :
  Z.pos (digits2_pos m) <= 53 ->
  Float.is_infinity (binary_round Float.prec Float.emax sx m 0) = false.
Proof.
  intros Hd. unfold binary_round.
  rewrite Z.add_0_r, fexp_eq, Z.max_l by lia.
  unfold shl_align. rewrite Z.sub_0_r.
  destruct (Z.pos (digits2_pos m) - 53) as [|k|k] eqn:Ek; try lia.
  - rewrite binary_round_aux_canonical by (rewrite fexp_eq; lia).
    reflexivity.
  - rewrite binary_round_aux_canonical.
    + replace (Z.neg k <=? Float.emax - Float.prec) with true; [reflexivity|].
      symmetry. apply Z.leb_le. unfold Float.emax, Float.prec. lia.
    + pose proof (digits2_pos_bounds m) as [Hlo Hhi].
      assert (Hk : Z.pos (digits2_pos (Pos.iter xO m k)) = 53).
      { apply digits2_pos_unique. rewrite iter_xO_spec.
        replace 53 with (Z.pos (digits2_pos m) + Z.pos k) at 2 by lia.
        replace (53 - 1) with ((Z.pos (digits2_pos m) - 1) + Z.pos k) by lia.
        rewrite !Z.pow_add_r by lia. split.
        - apply Z.mul_le_mono_nonneg_r; lia.
        - apply Z.mul_lt_mono_pos_r; lia. }
      rewrite Hk, fexp_eq. lia.
Qed.

Lemma round_nearest_even_record (m : Z) (r s : bool) :
  round_nearest_even m (loc_of_shr_record (Build_shr_record m r s)) =
  if r && (s || Z.odd m) then m + 1 else m.
Proof.
  destruct r, s; cbn; try reflexivity.
  rewrite <- Z.negb_even. now destruct (Z.even m).
Qed.

(** The second normalisation step of [binary_round_aux], for a mantissa of
    53 bits or the carry 2^53. *)
Lemma renormalise (sx : bool) (m2 e : Z) :
  2 ^ 52 <= m2 <= 2 ^ 53 -> 0 < e ->
  Float.is_infinity (let '(mrs, e') := shr_fexp Float.prec Float.emax m2 e loc_Exact in
          match shr_m mrs with
          | Z0 => S754_zero sx
          | Zpos m => if e' <=? Float.emax - Float.prec
                      then S754_finite sx m e' else S754_infinity sx
          | Zneg _ => S754_nan
          end) =
  if m2 <? 2 ^ 53 then negb (e <=? 971) else negb (e + 1 <=? 971).
Proof.
  intros Hm He. destruct (m2 <? 2 ^ 53) eqn:Hlt.
  - apply Z.ltb_lt in Hlt. destruct m2 as [|q|q]; try lia.
    assert (Hd : Z.pos (digits2_pos q) = 53)
      by (apply digits2_pos_unique; lia).
    unfold shr_fexp. cbn [Zdigits2 shr_record_of_loc].
    rewrite Hd, fexp_eq, Z.max_l, Z.add_simpl_l, Z.sub_diag by lia.
    cbn [shr shr_m]. unfold Float.emax, Float.prec.
    change (1024 - 53) with 971. now destruct (e <=? 971).
  - apply Z.ltb_ge in Hlt. assert (m2 = 2 ^ 53) as -> by lia.
    unfold shr_fexp.
    change (Zdigits2 (2 ^ 53)) with 54. rewrite fexp_eq, Z.max_l by lia.
    replace (54 + e - 53 - e) with 1 by lia.
    cbn [shr shr_record_of_loc iter_pos].
    change (shr_m (shr_1 (Build_shr_record (2 ^ 53) false false)))
      with (Z.pos (2 ^ 52)).
    cbv iota. unfold Float.emax, Float.prec. change (1024 - 53) with 971.
    now destruct (e + 1 <=? 971).
Qed.

Lemma binary_round_large (sx : bool) (m n : positive) :
  Z.pos (digits2_pos m) = 53 + Z.pos n ->
  Float.is_infinity (binary_round Float.prec Float.emax sx m 0) =
  (972 <=? Z.pos n) ||
  ((Z.pos n =? 971) && (Z.pos m / 2 ^ Z.pos n =? 2 ^ 53 - 1) &&
   Z.testbit (Z.pos m) (Z.pos n - 1)).
Proof.
  intros Hd. pose proof (digits2_pos_bounds m) as [Hlo Hhi].
  rewrite Hd in Hlo, Hhi.
  replace (53 + Z.pos n - 1) with (52 + Z.pos n) in Hlo by lia.
  rewrite Z.pow_add_r in Hlo, Hhi by lia.
  assert (Hpow : 0 < 2 ^ Z.pos n) by (apply Z.pow_pos_nonneg; lia).
  assert (Hm1 : 2 ^ 52 <= Z.pos m / 2 ^ Z.pos n < 2 ^ 53).
  { split.
    - apply Z.div_le_lower_bound; [exact Hpow|].
      rewrite Z.mul_comm. exact Hlo.
    - apply Z.div_lt_upper_bound; [exact Hpow|].
      rewrite Z.mul_comm. exact Hhi. }
  unfold binary_round.
  rewrite Z.add_0_r, Hd, fexp_eq, Z.max_l by lia.
  unfold shl_align. replace (53 + Z.pos n - 53 - 0) with (Z.pos n) by lia.
  unfold binary_round_aux at 1.
  unfold shr_fexp at 1. cbn [Zdigits2 shr_record_of_loc].
  rewrite Z.add_0_r, Hd, fexp_eq, Z.max_l by lia.
  replace (53 + Z.pos n - 53 - 0) with (Z.pos n) by lia.
  cbn [shr]. rewrite iter_pos_nat, Z.add_0_l.
  destruct (Pos2Nat.is_succ n) as [k Hk]. rewrite Hk.
  destruct (@iter_shr_1_spec (Z.pos m) k ltac:(lia)) as [Em Er].
  replace (Z.of_nat (S k)) with (Z.pos n) in Em by lia.
  replace (Z.of_nat k) with (Z.pos n - 1) in Er by lia.
  destruct (Nat.iter (S k) shr_1 (Build_shr_record (Z.pos m) false false))
    as [m1 r s].
  cbn [shr_m shr_r] in Em, Er. subst m1 r.
  rewrite round_nearest_even_record.
  set (m1 := Z.pos m / 2 ^ Z.pos n) in *.
  set (r := Z.testbit (Z.pos m) (Z.pos n - 1)).
  set (m2 := if r && (s || Z.odd m1) then m1 + 1 else m1).
  assert (Hm2 : 2 ^ 52 <= m2 <= 2 ^ 53)
    by (unfold m2; destruct (r && (s || Z.odd m1)); lia).
  rewrite (renormalise sx Hm2) by lia.
  assert (Hcarry : (m2 <? 2 ^ 53) = negb ((m1 =? 2 ^ 53 - 1) && r)).
  { unfold m2. destruct (m1 =? 2 ^ 53 - 1) eqn:E1.
    - apply Z.eqb_eq in E1. rewrite E1.
      change (Z.odd (2 ^ 53 - 1)) with true. rewrite orb_true_r, andb_true_r.
      destruct r; cbn [negb andb]; [apply Z.ltb_ge | apply Z.ltb_lt]; lia.
    - apply Z.eqb_neq in E1. cbn [andb negb]. apply Z.ltb_lt.
      destruct (r && (s || Z.odd m1)); lia. }
  rewrite Hcarry. clear Hcarry.
  destruct (Z.leb_spec (Z.pos n) 971), (Z.leb_spec (Z.pos n + 1) 971),
    (Z.leb_spec 972 (Z.pos n)), (Z.eqb_spec (Z.pos n) 971);
    try lia; now destruct (m1 =? 2 ^ 53 - 1), r.
Qed.

Lemma overflow_bound_split (x : Z) :
  0 <= x < 2 ^ 53 * 2 ^ 971 ->
  (x / 2 ^ 971 =? 2 ^ 53 - 1) && Z.testbit x (971 - 1)
  = (Float.int_overflow_bound <=? x).
Proof.
  intros [Hx0 Hx].
  change (971 - 1) with 970.
  rewrite Z.testbit_odd, Z.shiftr_div_pow2 by lia.
  set (q := x / 2 ^ 970).
  assert (Hq : x / 2 ^ 971 = q / 2).
  { unfold q. rewrite Z.div_div by lia. reflexivity. }
  rewrite Hq.
  assert (Hq2 : q = 2 * (q / 2) + (if Z.odd q then 1 else 0)).
  { rewrite <- Zmod_odd. apply Z.div_mod. lia. }
  assert (Hqhi : q < 2 ^ 54).
  { unfold q. apply Z.div_lt_upper_bound; [lia|].
    change (2 ^ 970 * 2 ^ 54) with (2 ^ 53 * 2 ^ 971). exact Hx. }
  assert (Hb : Float.int_overflow_bound = 2 ^ 970 * (2 ^ 54 - 1)) by reflexivity.
  assert (Hiff : Float.int_overflow_bound <= x <-> 2 ^ 54 - 1 <= q).
  { rewrite Hb. unfold q. split; intros H.
    - apply Z.div_le_lower_bound; [lia | exact H].
    - etransitivity; [|apply (Z.mul_div_le x (2 ^ 970)); lia].
      apply Z.mul_le_mono_nonneg_l; [lia | exact H]. }
  destruct (Z.leb_spec Float.int_overflow_bound x) as [H|H].
  - apply Hiff in H. assert (q = 2 ^ 54 - 1) as -> by lia. reflexivity.
  - assert (Hlt : q < 2 ^ 54 - 1) by (destruct Hiff; lia).
    destruct (Z.eqb_spec (q / 2) (2 ^ 53 - 1)) as [E|E]; [|reflexivity].
    destruct (Z.odd q); [lia | reflexivity].
Qed.

(** The float of a positive int is an infinity exactly from
    [Float.int_overflow_bound] on. *)
Lemma binary_round_overflow (sx : bool) (m : positive) :
  Float.is_infinity (binary_round Float.prec Float.emax sx m 0) = (Float.int_overflow_bound <=? Z.pos m).
Proof.
  pose proof (digits2_pos_bounds m) as [Hlo Hhi].
  destruct (Z.pos (digits2_pos m) - 53) as [|n|n] eqn:En.
  - rewrite binary_round_small by lia.
    symmetry. apply Z.leb_gt. replace (Z.pos (digits2_pos m)) with 53 in Hhi by lia.
    unfold Float.int_overflow_bound. lia.
  - assert (Hd : Z.pos (digits2_pos m) = 53 + Z.pos n) by lia.
    rewrite (@binary_round_large sx m n Hd).
    rewrite Hd in Hlo, Hhi.
    replace (53 + Z.pos n - 1) with (52 + Z.pos n) in Hlo by lia.
    rewrite Z.pow_add_r in Hlo, Hhi by lia.
    destruct (Z.leb_spec 972 (Z.pos n)) as [H972|H972].
    + symmetry. apply Z.leb_le.
      pose proof (Z.pow_le_mono_r 2 972 (Z.pos n) ltac:(lia) H972) as Hp.
      unfold Float.int_overflow_bound. 
      assert (2 ^ 52 * 2 ^ 972 <= Z.pos m) by nia.
      change (2 ^ 52 * 2 ^ 972) with (2 ^ 1024) in H. lia.
    + destruct (Z.eqb_spec (Z.pos n) 971) as [H971|H971].
      * rewrite H971 in *. cbn [orb andb].
        apply overflow_bound_split. lia.
      * cbn [orb andb]. symmetry. apply Z.leb_gt.
        pose proof (Z.pow_le_mono_r 2 (Z.pos n) 970 ltac:(lia) ltac:(lia))
          as Hp.
        assert (Z.pos m < 2 ^ 53 * 2 ^ 970) by nia.
        change (2 ^ 53 * 2 ^ 970) with (2 ^ 1023) in H.
        unfold Float.int_overflow_bound. lia.
  - rewrite binary_round_small by lia.
    symmetry. apply Z.leb_gt.
    assert (Z.pos m < 2 ^ 53).
    { eapply Z.lt_le_trans; [exact Hhi|]. apply Z.pow_le_mono_r; lia. }
    unfold Float.int_overflow_bound. lia.
Qed.

(** [float(n)] raises exactly for the ints of magnitude
    [int_overflow_bound] or more. *)
Lemma of_int_None_iff (n : Z) :
  Float.of_int n = None <-> Float.int_overflow_bound <= Z.abs n.
Proof.
  assert (H : Float.of_int n = None <-> Float.is_infinity (Float.of_Z n) = true).
  { unfold Float.of_int. destruct (Float.of_Z n); cbn; split;
      try discriminate; reflexivity. }
  rewrite H. unfold Float.of_Z, binary_normalize.
  destruct n as [|m|m].
  - cbn. split; [discriminate | intros Hb; exfalso; revert Hb; apply Z.lt_nge; reflexivity].
  - rewrite binary_round_overflow. apply Z.leb_le.
  - rewrite binary_round_overflow. apply Z.leb_le.
Qed.

Lemma of_int_in_range (n : Z) :
  Z.abs n < Float.int_overflow_bound ->
  Float.of_int n = Some (Float.of_Z n).
Proof.
  intros H. apply of_int_convertible. rewrite of_int_None_iff. lia.
Qed.

(** ** The subtotal *)

Lemma lit_zero : Float.lit 0.0 = Float.zero.
Proof. vm_compute. reflexivity. Qed.

Lemma extended_convertible (li : LineItem) :
  convertible li -> extended li = Return (price_times_quantity li).
Proof.
  intros H. unfold extended, times, as_float.
  now rewrite (of_int_in_range _ H).
Qed.

(** The loop is a left fold as long as every quantity converts. *)
Lemma subtotal_loop_fold (items : list LineItem) :
  Forall convertible items ->
  forall acc,
    _subtotal_loop items acc =
    Return (fold_left (fun t li => plus t (price_times_quantity li))
                      items acc).
Proof.
  induction 1 as [|li rest Hli _ IH]; intros acc; cbn [_subtotal_loop].
  - reflexivity.
  - rewrite (extended_convertible Hli). cbn [rbind fold_left]. apply IH.
Qed.

(** One more item at the end of the cart: its extended price is added to
    the subtotal of the items before it. *)
Lemma subtotal_loop_followed_by (items : list LineItem) (li : LineItem) :
  forall acc,
    _subtotal_loop (followed_by items li) acc =
    rbind (_subtotal_loop items acc) (fun t =>
    rbind (extended li) (fun e => Return (plus t e))).
Proof.
  unfold followed_by.
  induction items as [|x rest IH]; intros acc; simpl.
  - reflexivity.
  - destruct (extended x) as [e|e]; simpl; [apply IH | reflexivity].
Qed.

Lemma sigma_ext (n : nat) (f g : nat -> Money) :
  (forall i, (i < n)%nat -> f i = g i) -> sigma n f = sigma n g.
Proof.
  induction n as [|n IH]; intros H; cbn [sigma]; [reflexivity|].
  rewrite IH by (intros i Hi; apply H; lia).
  now rewrite H by lia.
Qed.

Lemma sum_in_cart_order_followed_by (items : list LineItem) (li : LineItem) :
  sum_in_cart_order (followed_by items li) =
  plus (sum_in_cart_order items) (price_times_quantity li).
Proof.
  unfold sum_in_cart_order, followed_by.
  rewrite length_app, Nat.add_1_r. cbn [sigma List.length].
  rewrite nth_error_app2, Nat.sub_diag by lia. cbn [nth_error].
  f_equal. apply sigma_ext. intros i Hi.
  now rewrite nth_error_app1 by exact Hi.
Qed.

Lemma fold_is_sum_in_cart_order (items : list LineItem) :
  fold_left (fun t li => plus t (price_times_quantity li)) items zero_money
  = sum_in_cart_order items.
Proof.
  induction items as [|li items IH] using rev_ind; [reflexivity|].
  rewrite fold_left_app. cbn [fold_left]. rewrite IH.
  symmetry. apply sum_in_cart_order_followed_by.
Qed.

Lemma extended_not_convertible (li : LineItem) :
  ~ convertible li ->
  extended li = Raise (OverflowError "int too large to convert to float").
Proof.
  intros H. unfold extended, times, as_float.
  assert (E : Float.of_int (quantity li) = None)
    by (apply of_int_None_iff; unfold convertible in H; lia).
  now rewrite E.
Qed.

Lemma extended_cases (li : LineItem) :
  extended li = Return (price_times_quantity li) \/
  extended li = Raise (OverflowError "int too large to convert to float").
Proof.
  destruct (Z_lt_le_dec (Z.abs (quantity li)) Float.int_overflow_bound).
  - left. now apply extended_convertible.
  - right. apply extended_not_convertible. unfold convertible. lia.
Qed.

(** One quantity that does not convert makes the whole loop raise. *)
Lemma subtotal_loop_overflow (items : list LineItem) :
  Exists (fun li => ~ convertible li) items ->
  forall acc,
    _subtotal_loop items acc
      = Raise (OverflowError "int too large to convert to float").
Proof.
  induction items as [|li rest IH]; intros Hbig acc.
  - inversion Hbig.
  - cbn [_subtotal_loop].
    destruct (extended_cases li) as [E|E]; rewrite E; cbn [rbind];
      [|reflexivity].
    apply IH. inversion Hbig as [x l Hx|x l Hx]; subst; [|exact Hx].
    rewrite (extended_not_convertible Hx) in E. discriminate.
Qed.

Lemma apply_discount_returns (a : Money) (rate : option float) :
  exists d, _apply_discount a rate = Return d.
Proof.
  unfold _apply_discount. destruct rate as [r|]; [|now exists a].
  destruct (negb (Float.truthy r) || Float.leb r Float.zero);
    [now exists a | eexists; reflexivity].
Qed.

(** C7 (amended): for a cart with no line items the subtotal step returns
    a zero Money and checkout goes on to its next steps (it asks for the
    shipping surcharge); for all unit prices and all quantities of
    magnitude below 2^1024 − 2^970, the non-negative ones among them, the
    subtotal is the sum of unit_price × quantity over the line items in
    cart order; and a cart holding a quantity of that magnitude or more
    makes the subtotal step raise OverflowError. *)
Theorem subtotal_is_sum_in_cart_order :
  _subtotal [] = Return zero_money /\
  (forall (W : Type) (self : CheckoutService W) user_id rate shipping
          ship_to card_number (s : mstate W),
     exists rest,
       calls (snd (checkout self user_id
                     {| items := []; discount_rate := rate |}
                     shipping ship_to card_number s))
       = (calls s ++ CallSurcharge :: rest)%list) /\
  (forall items : list LineItem,
     Forall convertible items ->
     _subtotal items = Return (sum_in_cart_order items)) /\
  (forall items : list LineItem,
     Exists (fun li => ~ convertible li) items ->
     _subtotal items
       = Raise (OverflowError "int too large to convert to float")).
Proof.
  split; [|split; [|split]].
  - unfold _subtotal. cbn [_subtotal_loop]. now rewrite lit_zero.
  - intros W self user_id rate shipping ship_to card_number s.
    unfold checkout, bind, lift, invoke, _log, print, ret.
    cbn [items discount_rate _subtotal _subtotal_loop].
    destruct (apply_discount_returns {| amount := Float.lit 0.0 |} rate)
      as [discounted ->].
    destruct (surcharge shipping (world s)) as [[fee|e] w1];
      cbn [world calls stdout snd]; [|now exists []].
    destruct (apply (_tax self) (plus discounted fee) w1) as [[tot|e] w2];
      cbn [world calls stdout snd];
      [|rewrite <- app_assoc; eexists; reflexivity].
    destruct (charge (_payments self) card_number tot w2) as [[[]|e] w3];
      cbn [world calls stdout snd];
      [|rewrite <- !app_assoc; eexists; reflexivity].
    destruct (label shipping ship_to w3) as [[lbl|e] w4];
      cbn [world calls stdout snd];
      rewrite <- !app_assoc; eexists; reflexivity.
  - intros items Hconv. unfold _subtotal.
    rewrite (subtotal_loop_fold Hconv), lit_zero.
    f_equal. apply fold_is_sum_in_cart_order.
  - intros items Hbig. apply subtotal_loop_overflow, Hbig.
Qed.

Lemma subtotal_witness :
  _subtotal (items example_cart) = Return (sum_in_cart_order (items example_cart)) /\
  sum_in_cart_order (items example_cart) = {| amount := Float.lit 40.0 |}.
Proof.
  split.
  - apply (proj1 (proj2 (proj2 subtotal_is_sum_in_cart_order))).
    repeat constructor; vm_compute; reflexivity.
  - vm_compute. reflexivity.
Defined.

(** C7, as stated, fails for a quantity too large for a float: with the
    non-negative unit price 1.0 and the non-negative quantity
    2^1024 − 2^970 the subtotal step raises OverflowError, while one less
    still converts. *)
Lemma subtotal_overflow_counterexample :
  Float.leb Float.zero (Float.lit 1.0) = true /\
  0 <= Float.int_overflow_bound /\
  _subtotal [ {| sku := "SKU-1"; unit_price := {| amount := Float.lit 1.0 |};
                 quantity := Float.int_overflow_bound |} ]
    = Raise (OverflowError "int too large to convert to float") /\
  Float.of_int (Float.int_overflow_bound - 1)
    = Some (SFmax_float Float.prec Float.emax).
Proof.
  split; [vm_compute; reflexivity|].
  split; [vm_compute; discriminate|].
  split; vm_compute; reflexivity.
Qed.

(** ** Repeating a checkout *)

(** With stateless collaborators and a processor that always approves, the
    outcome of checkout is the same from any two states, and the world is
    left as it was. *)
Lemma checkout_outcome_independent_of_state (W : Type)
    (self : CheckoutService W) user_id cart shipping ship_to card_number :
  stateless_shipping shipping ->
  stateless_tax (_tax self) ->
  always_approves (_payments self) ->
  forall s s' : mstate W,
    fst (checkout self user_id cart shipping ship_to card_number s)
      = fst (checkout self user_id cart shipping ship_to card_number s') /\
    world (snd (checkout self user_id cart shipping ship_to card_number s))
      = world s.
Proof.
  intros [[rfee Hfee] Hlabel] Htax Hpay s s'.
  unfold checkout, bind, lift, invoke, _log, print, ret.
  destruct (_subtotal (items cart)) as [subtotal|e]; [|auto].
  destruct (_apply_discount subtotal (discount_rate cart))
    as [discounted|e]; [|auto].
  rewrite !Hfee. destruct rfee as [fee|e]; [|auto].
  cbn [world calls stdout].
  destruct (Htax (plus discounted fee)) as [rtax Hrtax].
  rewrite !Hrtax. destruct rtax as [tot|e]; [|auto].
  cbn [world calls stdout]. rewrite !Hpay.
  cbn [world calls stdout].
  destruct (Hlabel ship_to) as [rlabel Hrlabel].
  rewrite !Hrlabel. destruct rlabel as [lbl|e]; auto.
Qed.

(** With stateless collaborators whose operations return and a processor
    that always approves, a checkout whose subtotal can be computed returns
    its Receipt from every state, and leaves the world as it was. *)
Lemma checkout_returns_from_any_state (W : Type)
    (self : CheckoutService W) user_id cart shipping ship_to card_number
    (subtotal discounted fee tot : Money) (lbl : string) :
  _subtotal (items cart) = Return subtotal ->
  _apply_discount subtotal (discount_rate cart) = Return discounted ->
  (forall w, surcharge shipping w = (Return fee, w)) ->
  (forall w, apply (_tax self) (plus discounted fee) w = (Return tot, w)) ->
  always_approves (_payments self) ->
  (forall w, label shipping ship_to w = (Return lbl, w)) ->
  forall s : mstate W,
    fst (checkout self user_id cart shipping ship_to card_number s)
      = Return {| total := tot; shipping_label := lbl |} /\
    world (snd (checkout self user_id cart shipping ship_to card_number s))
      = world s.
Proof.
  intros Hsub Hdisc Hfee Htax Hpay Hlabel s.
  unfold checkout, bind, lift, invoke, _log, print, ret.
  rewrite Hsub, Hdisc, Hfee. cbn [world calls stdout].
  rewrite Htax. cbn [world calls stdout].
  rewrite Hpay. cbn [world calls stdout].
  rewrite Hlabel. cbn [world calls stdout fst snd]. split; reflexivity.
Qed.

Lemma stateless_returns (W A : Type) (op : Eff W A) (w0 : W) (a : A) :
  stateless op -> fst (op w0) = Return a ->
  forall w, op w = (Return a, w).
Proof.
  intros [r Hr] H w. rewrite Hr in H. cbn [fst] in H. subst r. apply Hr.
Qed.

(** A subtotal that raises makes checkout raise the same, whatever the
    state. *)
Lemma checkout_raises_from_any_state (W : Type)
    (self : CheckoutService W) user_id cart shipping ship_to card_number
    (e : exception) :
  _subtotal (items cart) = Raise e ->
  forall s : mstate W,
    fst (checkout self user_id cart shipping ship_to card_number s) = Raise e.
Proof.
  intros Hsub s. unfold checkout, bind, lift. now rewrite Hsub.
Qed.

(** C8 (amended): with a stateless shipping option and tax policy and a
    stateless processor that always approves, calling checkout twice in a
    row with the same cart, shipping option, destination and card number
    has the same outcome both times.  When every quantity of the cart
    converts to a float (its magnitude is below 2^1024 − 2^970) and the
    surcharge, tax and label operations return, that outcome is a Receipt,
    the same both times: its total is what the tax policy returned for the
    discounted subtotal plus the surcharge, its label what the shipping
    option returned; and the collaborators' world is left as it was.  When
    some quantity does not convert, both calls raise OverflowError. *)
Theorem checkout_twice_same_receipt (W : Type) (self : CheckoutService W)
    (user_id : string) (cart : Cart) (shipping : ShippingOption W)
    (ship_to : Address) (card_number : option string) (s : mstate W) :
  stateless_shipping shipping ->
  stateless_tax (_tax self) ->
  always_approves (_payments self) ->
  let first := checkout self user_id cart shipping ship_to card_number s in
  let second :=
    checkout self user_id cart shipping ship_to card_number (snd first) in
  fst second = fst first /\
  (Forall convertible (items cart) ->
   forall (discounted fee tot : Money) (lbl : string),
     _apply_discount (sum_in_cart_order (items cart)) (discount_rate cart)
       = Return discounted ->
     fst (surcharge shipping (world s)) = Return fee ->
     fst (apply (_tax self) (plus discounted fee) (world s)) = Return tot ->
     fst (label shipping ship_to (world s)) = Return lbl ->
     fst first = Return {| total := tot; shipping_label := lbl |} /\
     fst second = Return {| total := tot; shipping_label := lbl |} /\
     world (snd second) = world s) /\
  (Exists (fun li => ~ convertible li) (items cart) ->
   fst first = Raise (OverflowError "int too large to convert to float") /\
   fst second = Raise (OverflowError "int too large to convert to float")).
Proof.
  intros Hship Htax Hpay. cbv zeta. split; [|split].
  - apply (checkout_outcome_independent_of_state
             self user_id cart ship_to card_number Hship Htax Hpay).
  - intros Hconv discounted fee tot lbl Hdisc Hfee Htot Hlbl.
    destruct Hship as [Hsur Hlab].
    assert (Hsub : _subtotal (items cart)
                   = Return (sum_in_cart_order (items cart))).
    { unfold _subtotal. rewrite (subtotal_loop_fold Hconv), lit_zero.
      f_equal. apply fold_is_sum_in_cart_order. }
    pose proof (@checkout_returns_from_any_state W self user_id cart shipping
                  ship_to card_number _ discounted fee tot lbl
                  Hsub Hdisc
                  (stateless_returns _ Hsur Hfee)
                  (stateless_returns _ (Htax _) Htot)
                  Hpay
                  (stateless_returns _ (Hlab _) Hlbl)) as Hany.
    destruct (Hany s) as [H1 Hw1].
    destruct (Hany (snd (checkout self user_id cart shipping ship_to
                           card_number s))) as [H2 Hw2].
    split; [exact H1|]. split; [exact H2|]. now rewrite Hw2.
  - intros Hbig.
    pose proof (@subtotal_loop_overflow (items cart) Hbig
                  {| amount := Float.lit 0.0 |}) as Hsub.
    fold (_subtotal (items cart)) in Hsub.
    split; apply checkout_raises_from_any_state, Hsub.
Qed.

Lemma checkout_twice_witness :
  fst (checkout approving_service "u-123" example_cart ExpressShipping
         example_address example_card start)
    = Return {| total := {| amount := Float.lit 50.07161250000001 |};
                shipping_label := "EXP-10001" |} /\
  fst (checkout approving_service "u-123" example_cart ExpressShipping
         example_address example_card
         (snd (checkout approving_service "u-123" example_cart
                 ExpressShipping example_address example_card start)))
    = Return {| total := {| amount := Float.lit 50.07161250000001 |};
                shipping_label := "EXP-10001" |} /\
  world (snd (checkout approving_service "u-123" example_cart ExpressShipping
                example_address example_card
                (snd (checkout approving_service "u-123" example_cart
                        ExpressShipping example_address example_card
                        start))))
    = world start.
Proof.
  assert (Hship : stateless_shipping (@ExpressShipping unit)).
  { split.
    - exists (Return {| amount := Float.lit 9.99 |}). intros []. reflexivity.
    - intros to. exists (Return ("EXP-" ++ zip to)). intros []. reflexivity. }
  assert (Htax : stateless_tax (_tax approving_service)).
  { intros pre_tax. exists (times pre_tax (PyFloat (Float.lit 1.08875))).
    intros []. reflexivity. }
  assert (Hpay : always_approves (_payments approving_service)).
  { intros c a []. reflexivity. }
  refine (proj1 (proj2 (@checkout_twice_same_receipt unit approving_service
                          "u-123" example_cart ExpressShipping example_address
                          example_card start Hship Htax Hpay))
                _ {| amount := Float.lit 36.0 |} {| amount := Float.lit 9.99 |}
                {| amount := Float.lit 50.07161250000001 |} "EXP-10001"
                _ _ _ _).
  - repeat constructor; vm_compute; reflexivity.
  - vm_compute. reflexivity.
  - vm_compute. reflexivity.
  - vm_compute. reflexivity.
  - vm_compute. reflexivity.
Defined.

(** C8, as stated, fails for a cart whose quantity is too large for a
    float: with the stateless Express shipping, the stateless New York tax
    and the processor that always approves, both calls raise OverflowError
    and neither yields a Receipt. *)
Lemma checkout_twice_counterexample :
  stateless_shipping (@ExpressShipping unit) /\
  stateless_tax (_tax approving_service) /\
  always_approves (_payments approving_service) /\
  fst (checkout approving_service "u-123" oversized_cart ExpressShipping
         example_address example_card start)
    = Raise (OverflowError "int too large to convert to float") /\
  fst (checkout approving_service "u-123" oversized_cart ExpressShipping
         example_address example_card
         (snd (checkout approving_service "u-123" oversized_cart
                 ExpressShipping example_address example_card start)))
    = Raise (OverflowError "int too large to convert to float").
Proof.
  split; [|split; [|split; [|split]]].
  - split.
    + exists (Return {| amount := Float.lit 9.99 |}). intros []. reflexivity.
    + intros to. exists (Return ("EXP-" ++ zip to)). intros []. reflexivity.
  - intros pre_tax.
    exists (times pre_tax (PyFloat (Float.lit 1.08875))).
    intros []. reflexivity.
  - intros c a []. reflexivity.
  - vm_compute. reflexivity.
  - vm_compute. reflexivity.
Qed.

(** ** Line items with a zero or negative quantity *)

(** C10 (amended): constructing a LineItem validates nothing, so a zero or
    negative quantity is accepted; for a quantity of magnitude below
    2^1024 − 2^970 the extended price is unit_price × quantity and an
    item appended to a cart adds that amount to the subtotal of the items
    before it; and when moreover the quantity is zero or negative and the
    unit price is finite and not negative, that amount is zero or
    negative. *)
Theorem nonpositive_quantity_is_accepted (a_sku : string) (price : Money)
    (q : Z) :
  LineItem_init a_sku price q
    = Return {| sku := a_sku; unit_price := price; quantity := q |} /\
  (Z.abs q < Float.int_overflow_bound ->
   extended {| sku := a_sku; unit_price := price; quantity := q |}
     = Return (price_times_quantity
                 {| sku := a_sku; unit_price := price; quantity := q |}) /\
   forall items subtotal,
     _subtotal items = Return subtotal ->
     _subtotal (followed_by items
                  {| sku := a_sku; unit_price := price; quantity := q |})
       = Return (plus subtotal
                   (price_times_quantity
                      {| sku := a_sku; unit_price := price;
                         quantity := q |}))) /\
  (- Float.int_overflow_bound < q <= 0 -> finite_nonnegative price ->
   zero_or_negative
     (price_times_quantity
        {| sku := a_sku; unit_price := price; quantity := q |})).
Proof.
  split; [reflexivity|]. split.
  - intros Hconv.
    assert (Hext : extended {| sku := a_sku; unit_price := price;
                               quantity := q |}
                   = Return (price_times_quantity
                               {| sku := a_sku; unit_price := price;
                                  quantity := q |}))
      by (apply extended_convertible; exact Hconv).
    split; [exact Hext|].
    intros items subtotal Hsub. unfold _subtotal in *.
    now rewrite subtotal_loop_followed_by, Hsub, Hext.
  - intros Hq [Hnonneg Hfinite].
    unfold zero_or_negative, price_times_quantity.
    cbn [amount unit_price quantity].
    destruct (@of_int_Some q _ (of_int_in_range q ltac:(lia)))
      as [_ Hninf].
    apply mul_nonnegative_by_nonpositive;
      auto using of_Z_nonpositive with zarith.
Qed.

Lemma nonpositive_quantity_witness :
  zero_or_negative
    (price_times_quantity
       {| sku := "SKU-1"; unit_price := {| amount := Float.lit 12.50 |};
          quantity := -2 |}) /\
  _subtotal (followed_by (items example_cart)
               {| sku := "SKU-1";
                  unit_price := {| amount := Float.lit 12.50 |};
                  quantity := -2 |})
    = Return (plus {| amount := Float.lit 40.0 |}
                   (price_times_quantity
                      {| sku := "SKU-1";
                         unit_price := {| amount := Float.lit 12.50 |};
                         quantity := -2 |})).
Proof.
  assert (Hconv : Z.abs (-2) < Float.int_overflow_bound)
    by (vm_compute; reflexivity).
  split.
  - apply (proj2 (proj2 (nonpositive_quantity_is_accepted
                           "SKU-1" {| amount := Float.lit 12.50 |} (-2))));
      [split; [vm_compute; reflexivity | lia]
      | split; vm_compute; reflexivity].
  - apply (proj2 (proj1 (proj2 (nonpositive_quantity_is_accepted
                           "SKU-1" {| amount := Float.lit 12.50 |} (-2)))
                        Hconv)).
    vm_compute. reflexivity.
Defined.

(** C10, as stated, fails for a negative unit price: the item with unit
    price −5.0 and quantity −2 is accepted, its extended price is 10.0,
    and it adds a positive amount to the subtotal. *)
Lemma negative_price_counterexample :
  LineItem_init "SKU-1" {| amount := Float.lit (-5.0) |} (-2)
    = Return {| sku := "SKU-1"; unit_price := {| amount := Float.lit (-5.0) |};
                quantity := -2 |} /\
  extended {| sku := "SKU-1"; unit_price := {| amount := Float.lit (-5.0) |};
              quantity := -2 |}
    = Return {| amount := Float.lit 10.0 |} /\
  Float.leb (Float.lit 10.0) Float.zero = false /\
  _subtotal [ {| sku := "SKU-1";
                 unit_price := {| amount := Float.lit (-5.0) |};
                 quantity := -2 |} ]
    = Return {| amount := Float.lit 10.0 |}.
Proof.
  repeat split; vm_compute; reflexivity.
Qed.

(** ** Further properties of the orchestrator *)

(** Authorization happens exactly once per successful checkout, and with
    the final total: among the calls a successful checkout makes there is
    one charge, for the card number given and the total on the receipt. *)
Theorem charge_invoked_once_with_final_total (W : Type)
    (self : CheckoutService W) (user_id : string) (cart : Cart)
    (shipping : ShippingOption W) (ship_to : Address)
    (card_number : option string) (s s' : mstate W) (receipt : Receipt) :
  checkout self user_id cart shipping ship_to card_number s
    = (Return receipt, s') ->
  exists made,
    calls s' = (calls s ++ made)%list /\
    filter is_charge made = [CallCharge card_number (total receipt)].
Proof.
  intros H.
  apply checkout_Return_inv in H
    as (subtotal & discounted & fee & w1 & w2 & w3 & w4 &
        _ & _ & _ & _ & _ & _ & ->).
  eexists. split; reflexivity.
Qed.

Lemma charge_invoked_once_witness :
  exists made,
    calls (snd main) = (calls start ++ made)%list /\
    filter is_charge made
      = [CallCharge example_card {| amount := Float.lit 50.07161250000001 |}].
Proof.
  apply (@charge_invoked_once_with_final_total unit
           example_service "u-123" example_cart ExpressShipping
           example_address example_card start (snd main)
           {| total := {| amount := Float.lit 50.07161250000001 |};
              shipping_label := "EXP-10001" |}).
  vm_compute. reflexivity.
Defined.

(** The same cart with Standard shipping: no surcharge is added, the total
    is 36.00 × 1.08875 = 39.195 (the double 39.19500000000001) and the label
    is "STD-10001". *)
Theorem example_scenario_B :
  checkout example_service "u-123" example_cart StandardShipping
           example_address example_card start
    = (Return {| total := {| amount := Float.lit 39.19500000000001 |};
                 shipping_label := "STD-10001" |},
       {| world := tt;
          calls := [CallSurcharge;
                    CallApply {| amount := Float.lit 36.00 |};
                    CallCharge example_card
                               {| amount := Float.lit 39.19500000000001 |};
                    CallLabel example_address];
          stdout := ["USER=u-123 TOTAL=39.20 LABEL=STD-10001"] |}).
Proof.
  vm_compute. reflexivity.
Qed.

(** A discount rate above 1 is not rejected: it yields a negative
    amount. *)
Theorem rate_above_one_gives_negative_amount :
  _apply_discount {| amount := Float.lit 40.0 |} (Some (Float.lit 1.5))
    = Return {| amount := Float.lit (-20.0) |} /\
  Float.ltb (Float.lit (-20.0)) Float.zero = true.
Proof.
  split; vm_compute; reflexivity.
Qed.

(** ** Failures of a checkout *)

Section Failures.

Variable W : Type.
Variable self : CheckoutService W.
Variable user_id : string.
Variable cart : Cart.
Variable shipping : ShippingOption W.
Variable ship_to : Address.
Variable card_number : option string.

(** The audit line is printed by successful checkouts only: a checkout
    that raises, whatever the step that raised, prints nothing, and one that
    returns a Receipt prints exactly the line for that Receipt. *)
Theorem audit_line_printed_on_success_only (s : mstate W) :
  stdout (snd (checkout self user_id cart shipping ship_to card_number s))
  = match fst (checkout self user_id cart shipping ship_to card_number s) with
    | Return receipt =>
        (stdout s ++ [log_line user_id (total receipt)
                               (shipping_label receipt)])%list
    | Raise _ => stdout s
    end.
Proof.
  unfold checkout, bind, lift, invoke, _log, print, ret.
  destruct (_subtotal (items cart)) as [subtotal|e]; [|reflexivity].
  destruct (_apply_discount subtotal (discount_rate cart))
    as [discounted|e]; [|reflexivity].
  destruct (surcharge shipping (world s)) as [[fee|e] w1]; [|reflexivity].
  cbn [world calls stdout].
  destruct (apply (_tax self) (plus discounted fee) w1)
    as [[tot|e] w2]; [|reflexivity].
  cbn [world calls stdout].
  destruct (charge (_payments self) card_number tot w2)
    as [[[]|e] w3]; [|reflexivity].
  cbn [world calls stdout].
  destruct (label shipping ship_to w3) as [[lbl|e] w4]; reflexivity.
Qed.

(** The calls a checkout makes, whatever its outcome, are an initial part
    of the fixed sequence surcharge, tax, charge, label: the processor is
    never charged before the tax policy returned the total, and the label
    is never asked for before the charge. *)
Theorem calls_follow_the_fixed_order (s : mstate W) :
  exists with_shipping tot n,
    calls (snd (checkout self user_id cart shipping ship_to card_number s))
    = (calls s ++
       firstn n (planned_calls with_shipping tot card_number ship_to))%list.
Proof.
  unfold checkout, bind, lift, invoke, _log, print, ret, planned_calls.
  destruct (_subtotal (items cart)) as [subtotal|e];
    [|exists zero_money, zero_money, 0%nat; cbn; now rewrite app_nil_r].
  destruct (_apply_discount subtotal (discount_rate cart))
    as [discounted|e];
    [|exists zero_money, zero_money, 0%nat; cbn; now rewrite app_nil_r].
  destruct (surcharge shipping (world s)) as [[fee|e] w1];
    [|exists zero_money, zero_money, 1%nat; reflexivity].
  cbn [world calls stdout].
  exists (plus discounted fee).
  destruct (apply (_tax self) (plus discounted fee) w1) as [[tot|e] w2];
    [|exists zero_money, 2%nat; cbn; now rewrite <- app_assoc].
  cbn [world calls stdout]. exists tot.
  destruct (charge (_payments self) card_number tot w2) as [[[]|e] w3];
    [|exists 3%nat; cbn; now rewrite <- !app_assoc].
  cbn [world calls stdout].
  destruct (label shipping ship_to w3) as [[lbl|e] w4];
    exists 4%nat; cbn; now rewrite <- !app_assoc.
Qed.


(** A subtotal that cannot be computed stops the checkout before any
    collaborator is called: nothing is charged, nothing changes. *)
Theorem failed_subtotal_charges_nothing (s : mstate W) (e : exception) :
  _subtotal (items cart) = Raise e ->
  checkout self user_id cart shipping ship_to card_number s = (Raise e, s).
Proof.
  intros H. unfold checkout.
  erewrite bind_raises by (unfold lift; rewrite H; reflexivity).
  reflexivity.
Qed.

(** When the subtotal converts and each collaborator call returns, checkout
    returns the Receipt of the taxed total and the label, having made the
    four calls in order and printed the audit line. *)
Theorem checkout_succeeds_when_every_step_does (s : mstate W)
    (subtotal discounted fee tot : Money) (lbl : string) (w1 w2 w3 w4 : W) :
  _subtotal (items cart) = Return subtotal ->
  _apply_discount subtotal (discount_rate cart) = Return discounted ->
  surcharge shipping (world s) = (Return fee, w1) ->
  apply (_tax self) (plus discounted fee) w1 = (Return tot, w2) ->
  charge (_payments self) card_number tot w2 = (Return tt, w3) ->
  label shipping ship_to w3 = (Return lbl, w4) ->
  checkout self user_id cart shipping ship_to card_number s
  = (Return {| total := tot; shipping_label := lbl |},
     {| world := w4;
        calls := calls s ++
                 planned_calls (plus discounted fee) tot card_number ship_to;
        stdout := stdout s ++ [log_line user_id tot lbl] |}).
Proof.
  intros Hsub Hdisc Hfee Htax Hpay Hlbl. unfold checkout.
  erewrite bind_returns by (unfold lift; rewrite Hsub; reflexivity).
  erewrite bind_returns by (unfold lift; rewrite Hdisc; reflexivity).
  erewrite bind_returns by (apply invoke_runs, Hfee).
  erewrite bind_returns by (apply invoke_runs, Htax).
  erewrite bind_returns by (apply invoke_runs, Hpay).
  erewrite bind_returns by (apply invoke_runs, Hlbl).
  unfold _log, print, bind, ret, planned_calls.
  cbn [world calls stdout]. now rewrite <- !app_assoc.
Qed.

End Failures.


Lemma failed_subtotal_witness :
  checkout example_service "u-123" oversized_cart ExpressShipping
           example_address example_card start
  = (Raise (OverflowError "int too large to convert to float"), start).
Proof.
  apply (@failed_subtotal_charges_nothing unit example_service "u-123"
           oversized_cart ExpressShipping example_address example_card).
  vm_compute. reflexivity.
Defined.

Lemma checkout_succeeds_witness :
  checkout example_service "u-123" example_cart ExpressShipping
           example_address example_card start
  = (Return {| total := {| amount := Float.lit 50.07161250000001 |};
               shipping_label := "EXP-10001" |},
     {| world := tt;
        calls := calls start ++
                 planned_calls (plus {| amount := Float.lit 36.0 |}
                                     {| amount := Float.lit 9.99 |})
                               {| amount := Float.lit 50.07161250000001 |}
                               example_card example_address;
        stdout := stdout start ++
                  [log_line "u-123"
                            {| amount := Float.lit 50.07161250000001 |}
                            "EXP-10001"] |}).
Proof.
  apply (@checkout_succeeds_when_every_step_does unit example_service
           "u-123" example_cart ExpressShipping example_address example_card
           start {| amount := Float.lit 40.0 |} {| amount := Float.lit 36.0 |}
           {| amount := Float.lit 9.99 |}
           {| amount := Float.lit 50.07161250000001 |} "EXP-10001"
           tt tt tt tt);
    vm_compute; reflexivity.
Defined.

(** ** Shipping labels *)

(** The label tells the shipping method and the destination zip apart: for
    one method two addresses get the same label exactly when their zips
    are equal, and a Standard label is never an Express label. *)
Theorem labels_identify_method_and_zip (W : Type) (a a' : Address)
    (w : W) :
  (label StandardShipping a w = label StandardShipping a' w
   <-> zip a = zip a') /\
  (label ExpressShipping a w = label ExpressShipping a' w
   <-> zip a = zip a') /\
  label StandardShipping a w <> label ExpressShipping a' w.
Proof.
  unfold StandardShipping, ExpressShipping, pure. cbn [label].
  repeat split.
  - intros H. injection H as H. exact H.
  - now intros ->.
  - intros H. injection H as H. exact H.
  - now intros ->.
  - intros H. discriminate H.
Qed.

(** ** Money arithmetic *)

Lemma SFadd_comm (x y : float) : Float.add x y = Float.add y x.
Proof.
  unfold Float.add, SFadd.
  destruct x as [sx|sx| |sx mx ex], y as [sy|sy| |sy my ey];
    try reflexivity; try (destruct sx, sy; reflexivity).
  rewrite (Z.min_comm ey ex). f_equal. apply Z.add_comm.
Qed.

(** [Money.plus] is commutative wherever the sum is a number: the two
    operands can be swapped whenever their sum is not NaN. *)
Theorem plus_commutative (a b : Money) :
  is_number (amount (plus a b)) -> plus b a = plus a b.
Proof.
  intros _. unfold plus. f_equal. apply SFadd_comm.
Qed.

Lemma plus_commutative_witness :
  plus {| amount := Float.lit 5.00 |} {| amount := Float.lit 12.50 |}
  = plus {| amount := Float.lit 12.50 |} {| amount := Float.lit 5.00 |}.
Proof.
  apply (@plus_commutative {| amount := Float.lit 12.50 |}
                           {| amount := Float.lit 5.00 |}).
  vm_compute. exact I.
Defined.

(** ** Multiplying by one *)

Lemma digits2_pos_shift (m : positive) (k : Z) :
  0 <= k ->
  forall q, Z.pos q = Z.pos m * 2 ^ k ->
  Z.pos (digits2_pos q) = Z.pos (digits2_pos m) + k.
Proof.
  intros Hk q Hq. apply digits2_pos_unique. rewrite Hq.
  pose proof (digits2_pos_bounds m) as [Hlo Hhi].
  replace (Z.pos (digits2_pos m) + k - 1)
    with (Z.pos (digits2_pos m) - 1 + k) by lia.
  rewrite !Z.pow_add_r by lia.
  assert (0 < 2 ^ k) by (apply Z.pow_pos_nonneg; lia).
  split.
  - apply Z.mul_le_mono_nonneg_r; lia.
  - apply Z.mul_lt_mono_pos_r; lia.
Qed.

(** Rounding [m × 2^52] at exponent [e − 52] gives back a canonical
    [(m, e)]. *)
Lemma binary_round_aux_scaled (sx : bool) (m : positive) (e : Z) :
  bounded Float.prec Float.emax m e = true ->
  binary_round_aux Float.prec Float.emax sx (Z.pos (m * 2 ^ 52)) (e + -52)
                   loc_Exact
  = S754_finite sx m e.
Proof.
  unfold bounded, canonical_mantissa. intros Hb.
  apply andb_true_iff in Hb as [Hcan Hmax].
  apply Z.eqb_eq in Hcan.
  assert (Hd : Z.pos (digits2_pos (m * 2 ^ 52))
               = Z.pos (digits2_pos m) + 52)
    by (apply digits2_pos_shift; [lia | now rewrite Pos2Z.inj_mul]).
  unfold binary_round_aux.
  unfold shr_fexp at 1. cbn [Zdigits2 shr_record_of_loc].
  rewrite Hd.
  replace (Z.pos (digits2_pos m) + 52 + (e + -52))
    with (Z.pos (digits2_pos m) + e) by lia.
  rewrite Hcan. replace (e - (e + -52)) with 52 by lia.
  cbn [shr]. rewrite iter_pos_nat.
  change (Pos.to_nat 52) with (S 51).
  destruct (@iter_shr_1_spec (Z.pos (m * 2 ^ 52)) 51 ltac:(lia)) as [Em Er].
  destruct (Nat.iter 52 shr_1
              (Build_shr_record (Z.pos (m * 2 ^ 52)) false false))
    as [m1 r s].
  cbn [shr_m shr_r] in Em, Er.
  assert (Hm1 : m1 = Z.pos m).
  { rewrite Em, Pos2Z.inj_mul. change (Z.of_nat 52) with 52.
    change (Z.pos (2 ^ 52)) with (2 ^ 52). apply Z.div_mul. lia. }
  assert (Hr : r = false).
  { rewrite Er, Pos2Z.inj_mul. change (Z.of_nat 51) with 51.
    change (Z.pos (2 ^ 52)) with (2 ^ 52).
    apply Z.mul_pow2_bits_low. lia. }
  clear Em Er. subst m1 r. rewrite round_nearest_even_record. cbn [andb].
  unfold shr_fexp. cbn [Zdigits2 shr_record_of_loc].
  replace (e + -52 + 52) with e by lia.
  rewrite Hcan, Z.sub_diag. cbn [shr shr_m].
  now rewrite Hmax.
Qed.

(** [x * 1.0 = x] for every double. *)
Lemma mul_one (x : float) : is_double x -> Float.mul x Float.one = x.
Proof.
  unfold is_double. intros Hx.
  destruct x as [s|s| |s m e];
    [now destruct s | now destruct s | reflexivity |].
  cbn [valid_binary] in Hx. unfold Float.mul, Float.one, SFmul.
  rewrite xorb_false_r. now apply binary_round_aux_scaled.
Qed.

Lemma sub_self (x : float) :
  is_finite x -> Float.sub x x = Float.zero.
Proof.
  destruct x as [s|s| |s m e]; cbn [is_finite]; intros H;
    try contradiction; unfold Float.sub, SFsub.
  - now destruct s.
  - now rewrite Z.sub_diag.
Qed.

(** An item bought once costs its unit price: with quantity 1 the extended
    price is the unit price itself, for every price that is a double and a
    number (not NaN). *)
Theorem quantity_one_costs_the_unit_price (a_sku : string) (price : Money) :
  is_double (amount price) -> is_number (amount price) ->
  extended {| sku := a_sku; unit_price := price; quantity := 1 |}
  = Return price.
Proof.
  intros H _. unfold extended, times, as_float. cbn [unit_price quantity].
  change (Float.of_int 1) with (Some Float.one). cbn [rbind].
  rewrite (mul_one H). now destruct price.
Qed.

Lemma quantity_one_witness :
  extended {| sku := "SKU-1"; unit_price := {| amount := Float.lit 12.50 |};
              quantity := 1 |}
  = Return {| amount := Float.lit 12.50 |}.
Proof.
  apply (@quantity_one_costs_the_unit_price "SKU-1"
           {| amount := Float.lit 12.50 |}).
  - vm_compute. reflexivity.
  - exact I.
Defined.

(** A discount rate of exactly 1 takes the whole amount off: for every
    finite subtotal the discounted amount is +0.0. *)
Theorem full_discount_gives_zero (subtotal : Money) :
  is_double (amount subtotal) -> is_finite (amount subtotal) ->
  _apply_discount subtotal (Some Float.one) = Return zero_money.
Proof.
  intros Hd Hf. unfold _apply_discount.
  change (negb (Float.truthy Float.one) || Float.leb Float.one Float.zero)
    with false. cbv iota.
  unfold times, as_float, minus. cbn [rbind amount].
  rewrite (mul_one Hd), (sub_self _ Hf). reflexivity.
Qed.

Lemma full_discount_witness :
  _apply_discount {| amount := Float.lit 40.0 |} (Some Float.one)
  = Return zero_money.
Proof.
  apply (@full_discount_gives_zero {| amount := Float.lit 40.0 |}).
  - vm_compute. reflexivity.
  - exact I.
Defined.

(** ** Amounts that are never negative *)

Lemma not_negative_cases (x : float) :
  not_negative x <->
  (exists s, x = S754_zero s) \/ x = S754_infinity false \/
  exists m e, x = S754_finite false m e.
Proof.
  unfold not_negative. split.
  - destruct x as [s|s| |s m e]; try destruct s; cbn;
      intros H; try discriminate; eauto.
  - intros [[s ->]|[->|[m [e ->]]]]; reflexivity.
Qed.

Lemma has_sign_not_negative (x : float) :
  has_sign false x -> not_negative x.
Proof.
  destruct x as [s|s| |s m e]; cbn; intros H; subst;
    try contradiction; reflexivity.
Qed.

Lemma binary_normalize_not_negative (n e : Z) :
  0 <= n ->
  not_negative (binary_normalize Float.prec Float.emax n e false).
Proof.
  intros H. destruct n as [|p|p]; [reflexivity| |lia].
  apply has_sign_not_negative, binary_round_sign.
Qed.

Lemma add_not_negative (x y : float) :
  not_negative x -> not_negative y -> not_negative (Float.add x y).
Proof.
  intros Hx Hy.
  apply not_negative_cases in Hx as [[sx ->]|[->|[mx [ex ->]]]];
    apply not_negative_cases in Hy as [[sy ->]|[->|[my [ey ->]]]];
    try reflexivity; try (destruct sx, sy; reflexivity);
    try (destruct sx; reflexivity); try (destruct sy; reflexivity).
  unfold Float.add, SFadd. cbn [cond_Zopp].
  apply binary_normalize_not_negative. lia.
Qed.

Lemma mul_not_negative (x y : float) :
  not_negative x -> not_negative y -> is_finite x -> is_finite y ->
  not_negative (Float.mul x y).
Proof.
  intros Hx Hy Fx Fy.
  apply not_negative_cases in Hx as [[sx ->]|[->|[mx [ex ->]]]];
    apply not_negative_cases in Hy as [[sy ->]|[->|[my [ey ->]]]];
    cbn [is_finite] in Fx, Fy; try contradiction;
    try (destruct sx, sy; reflexivity);
    try (destruct sx; reflexivity); try (destruct sy; reflexivity).
  unfold Float.mul, SFmul. cbn [xorb].
  apply has_sign_not_negative, binary_round_aux_sign. lia.
Qed.

(** Multiplying by a finite positive factor keeps an amount that is not
    negative so, also when the amount is an infinity. *)
Lemma mul_positive_not_negative (x : float) (m : positive) (e : Z) :
  not_negative x -> not_negative (Float.mul x (S754_finite false m e)).
Proof.
  intros Hx.
  apply not_negative_cases in Hx as [[sx ->]|[->|[mx [ex ->]]]];
    try reflexivity; try (destruct sx; reflexivity).
  unfold Float.mul, SFmul. cbn [xorb].
  apply has_sign_not_negative, binary_round_aux_sign. lia.
Qed.

(** The float of a non-negative int that converts is finite and not
    negative. *)
Lemma of_Z_nonnegative (n : Z) :
  0 <= n < Float.int_overflow_bound ->
  not_negative (Float.of_Z n) /\ is_finite (Float.of_Z n).
Proof.
  intros [H0 Hb]. destruct n as [|p|p]; [now split| |lia].
  pose proof (binary_round_overflow false p) as Hinf.
  rewrite (proj2 (Z.leb_gt _ _) Hb) in Hinf.
  pose proof (@binary_round_sign false p 0) as Hs.
  unfold Float.of_Z, binary_normalize.
  destruct (binary_round Float.prec Float.emax false p 0) as [s|s| |s m e];
    cbn in Hs, Hinf; subst; try contradiction; try discriminate;
    split; try reflexivity; exact I.
Qed.

Lemma finite_nonnegative_cases (m : Money) :
  finite_nonnegative m ->
  not_negative (amount m) /\ is_finite (amount m).
Proof.
  intros [H1 H2]. split; [exact H1|].
  destruct (amount m) as [s|s| |s p e]; try destruct s;
    cbn in *; try discriminate; exact I.
Qed.

(** A line item within the bounds a shop expects: a finite unit price
    that is not negative, and a quantity that is not negative and
    converts. *)
Lemma ordinary_item_not_negative (li : LineItem) :
  finite_nonnegative (unit_price li) ->
  0 <= quantity li < Float.int_overflow_bound ->
  extended li = Return (price_times_quantity li) /\
  not_negative (amount (price_times_quantity li)).
Proof.
  intros Hp Hq. split.
  - apply extended_convertible. unfold convertible. lia.
  - destruct (finite_nonnegative_cases Hp) as [Hn Hf].
    destruct (of_Z_nonnegative Hq) as [Hqn Hqf].
    unfold price_times_quantity. cbn [amount].
    now apply mul_not_negative.
Qed.

Lemma subtotal_loop_not_negative (items : list LineItem) :
  Forall (fun li => finite_nonnegative (unit_price li) /\
                    0 <= quantity li < Float.int_overflow_bound) items ->
  forall acc, not_negative (amount acc) ->
  exists subtotal, _subtotal_loop items acc = Return subtotal /\
                   not_negative (amount subtotal).
Proof.
  induction 1 as [|li rest [Hp Hq] _ IH]; intros acc Hacc;
    cbn [_subtotal_loop].
  - now exists acc.
  - destruct (ordinary_item_not_negative li Hp Hq) as [-> Hn].
    cbn [rbind]. apply IH. unfold plus. cbn [amount].
    now apply add_not_negative.
Qed.

(** For a cart of ordinary items the subtotal step returns, and its
    result is not negative (nor NaN). *)
Theorem subtotal_of_ordinary_items_not_negative (items : list LineItem) :
  Forall ordinary_item items ->
  exists subtotal, _subtotal items = Return subtotal /\
                   not_negative (amount subtotal).
Proof.
  intros H. unfold _subtotal.
  apply subtotal_loop_not_negative; [exact H|].
  rewrite lit_zero. reflexivity.
Qed.

Lemma subtotal_not_negative_witness :
  exists subtotal, _subtotal (items example_cart) = Return subtotal /\
                   not_negative (amount subtotal).
Proof.
  apply (@subtotal_of_ordinary_items_not_negative (items example_cart)).
  repeat constructor; vm_compute; try reflexivity; discriminate.
Defined.

Lemma no_rate_unchanged (a : Money) (rate : option float) :
  no_rate rate -> _apply_discount a rate = Return a.
Proof.
  intros [->|[r [-> Hr]]]; [reflexivity|].
  unfold _apply_discount. now rewrite (zero_or_negative_rate_skips _ Hr).
Qed.

Lemma reference_surcharge (W : Type) (sh : ShippingOption W) (w : W) :
  reference_shipping sh ->
  exists fee, surcharge sh w = (Return fee, w) /\
              not_negative (amount fee).
Proof.
  intros [->| ->]; eexists; split; reflexivity.
Qed.

(** With no discount, the reference shipping options and the New York tax
    policy, a cart of ordinary items is never charged a negative amount:
    the total on the receipt is not negative (nor NaN). *)
Theorem total_without_discount_not_negative (W : Type)
    (self : CheckoutService W) (user_id : string) (cart : Cart)
    (shipping : ShippingOption W) (ship_to : Address)
    (card_number : option string) (s s' : mstate W) (receipt : Receipt) :
  Forall ordinary_item (items cart) ->
  no_rate (discount_rate cart) ->
  reference_shipping shipping ->
  _tax self = NewYorkTax ->
  checkout self user_id cart shipping ship_to card_number s
    = (Return receipt, s') ->
  not_negative (amount (total receipt)).
Proof.
  intros Hitems Hrate Hship Htax H.
  apply checkout_Return_inv in H
    as (subtotal & discounted & fee & w1 & w2 & w3 & w4 &
        Hsub & Hdisc & Hfee & Hap & _).
  destruct (@subtotal_loop_not_negative (items cart) Hitems
              {| amount := Float.lit 0.0 |} eq_refl)
    as (subtotal' & Hsub' & Hn).
  fold (_subtotal (items cart)) in Hsub'.
  rewrite Hsub in Hsub'. injection Hsub' as <-.
  rewrite (no_rate_unchanged subtotal Hrate) in Hdisc.
  injection Hdisc as <-.
  destruct (reference_surcharge (world s) Hship) as (fee' & Hfee' & Hfn).
  rewrite Hfee in Hfee'. injection Hfee' as <- ->.
  rewrite Htax in Hap. unfold NewYorkTax in Hap. cbn [apply] in Hap.
  unfold times, as_float in Hap. cbn [rbind] in Hap.
  injection Hap as Htot _. rewrite <- Htot. cbn [amount].
  change (Float.add Float.one NewYorkTax.RATE)
    with (S754_finite false 4903294094299628 (-52)).
  apply mul_positive_not_negative.
  unfold plus. cbn [amount]. now apply add_not_negative.
Qed.

Lemma total_without_discount_witness :
  not_negative (S754_finite false 7659864742938700 (-47)).
Proof.
  apply (@total_without_discount_not_negative unit example_service "u-123"
           undiscounted_cart ExpressShipping example_address example_card
           start
           (snd (checkout example_service "u-123" undiscounted_cart
                   ExpressShipping example_address example_card start))
           {| total := {| amount :=
                            S754_finite false 7659864742938700 (-47) |};
              shipping_label := "EXP-10001" |}).
  - repeat constructor; vm_compute; try reflexivity; discriminate.
  - left. reflexivity.
  - right. reflexivity.
  - reflexivity.
  - vm_compute. reflexivity.
Defined.

(** ** Rounding a product that lies below a double *)

Lemma fexp_monotone (a b : Z) :
  a <= b -> fexp Float.prec Float.emax a <= fexp Float.prec Float.emax b.
Proof. intros H. rewrite !fexp_eq. lia. Qed.

Lemma digits2_pos_le (q : positive) (j : Z) :
  Z.pos q < 2 ^ j -> Z.pos (digits2_pos q) <= j.
Proof.
  intros H. pose proof (digits2_pos_bounds q) as [Hlo _].
  destruct (Z_lt_le_dec j 0) as [Hj|Hj];
    [rewrite Z.pow_neg_r in H by lia; lia|].
  assert (Z.pos (digits2_pos q) - 1 < j); [|lia].
  apply (Z.pow_lt_mono_r_iff 2); lia.
Qed.

Lemma canonical_digits (m : positive) (e : Z) :
  bounded Float.prec Float.emax m e = true ->
  fexp Float.prec Float.emax (Z.pos (digits2_pos m) + e) = e /\
  Z.pos (digits2_pos m) <= 53 /\ e <= 971 /\ -1074 <= e.
Proof.
  unfold bounded, canonical_mantissa. intros H.
  apply andb_true_iff in H as [Hc He].
  apply Z.eqb_eq in Hc. apply Z.leb_le in He.
  split; [exact Hc|]. rewrite fexp_eq in Hc.
  unfold Float.emax, Float.prec in He. lia.
Qed.

(** Shifting an exact record right by [n] bits divides by 2^n. *)
Lemma shr_exact_spec (x e : Z) (n : positive) :
  0 <= x ->
  exists mrs,
    shr (Build_shr_record x false false) e (Z.pos n) = (mrs, e + Z.pos n) /\
    shr_m mrs = x / 2 ^ Z.pos n.
Proof.
  intros Hx. cbn [shr]. rewrite iter_pos_nat.
  destruct (Pos2Nat.is_succ n) as [k Hk]. rewrite Hk.
  destruct (@iter_shr_1_spec x k Hx) as [Em _].
  replace (Z.of_nat (S k)) with (Z.pos n) in Em by lia.
  eexists. split; [reflexivity | exact Em].
Qed.

(** The last step of [binary_round_aux], applied to a mantissa [m2] at
    exponent [e1] that stays at or below the double [(ma, ea)]: the result
    is +0.0 or a finite float that is at or below [(ma, ea)] too. *)
Lemma renormalise_below (m2 e1 : Z) (ma : positive) (ea : Z) :
  bounded Float.prec Float.emax ma ea = true ->
  0 <= m2 -> e1 <= ea -> m2 <= Z.pos ma * 2 ^ (ea - e1) ->
  let '(mrs, e2) := shr_fexp Float.prec Float.emax m2 e1 loc_Exact in
  shr_m mrs = 0 \/
  exists my, shr_m mrs = Z.pos my /\ e2 <= ea /\
             Z.pos my <= Z.pos ma * 2 ^ (ea - e2).
Proof.
  intros Hb Hm2 He1 Hle.
  destruct (canonical_digits _ _ Hb) as (Hcan & Hda & Hea & _).
  unfold shr_fexp. cbn [shr_record_of_loc].
  destruct (fexp Float.prec Float.emax (Zdigits2 m2 + e1) - e1)
    as [|n|n] eqn:En.
  - cbn [shr shr_m].
    destruct m2 as [|q|q]; [now left| |lia]. right. now exists q.
  - destruct (shr_exact_spec e1 n Hm2) as (mrs & Hshr & Hm).
    rewrite Hshr, Hm.
    assert (Hpow : 0 < 2 ^ Z.pos n) by (apply Z.pow_pos_nonneg; lia).
    destruct m2 as [|q|q]; [left; apply Z.div_0_l; lia| |lia].
    (* the new exponent is still at most [ea] *)
    assert (He2 : e1 + Z.pos n <= ea).
    { cbn [Zdigits2] in En.
      replace (e1 + Z.pos n)
        with (fexp Float.prec Float.emax (Z.pos (digits2_pos q) + e1))
        by lia.
      rewrite <- Hcan. apply fexp_monotone.
      assert (Z.pos (digits2_pos q) <= Z.pos (digits2_pos ma) + (ea - e1));
        [|lia].
      apply digits2_pos_le. rewrite Z.pow_add_r by lia.
      pose proof (digits2_pos_bounds ma) as [_ Hhi].
      assert (0 < 2 ^ (ea - e1)) by (apply Z.pow_pos_nonneg; lia).
      nia. }
    assert (Hq : Z.pos q / 2 ^ Z.pos n
                 <= Z.pos ma * 2 ^ (ea - (e1 + Z.pos n))).
    { apply Z.div_le_upper_bound; [exact Hpow|].
      replace (2 ^ Z.pos n * (Z.pos ma * 2 ^ (ea - (e1 + Z.pos n))))
        with (Z.pos ma * 2 ^ (ea - e1)); [exact Hle|].
      replace (ea - e1) with ((ea - (e1 + Z.pos n)) + Z.pos n) by lia.
      rewrite Z.pow_add_r by lia. ring. }
    destruct (Z.pos q / 2 ^ Z.pos n) as [|my|my] eqn:Eq;
      [now left| |pose proof (Z.div_pos (Z.pos q) (2 ^ Z.pos n)); lia].
    right. now exists my.
  - cbn [shr shr_m].
    destruct m2 as [|q|q]; [now left| |lia]. right. now exists q.
Qed.

(** Rounding [P × 2^E], a value below the double [(ma, ea)] and of no
    larger magnitude, gives +0.0 or a finite float at or below
    [(ma, ea)]. *)
Lemma binary_round_aux_below (P : positive) (E : Z) (ma : positive)
    (ea : Z) :
  bounded Float.prec Float.emax ma ea = true ->
  E <= ea ->
  Z.pos P < Z.pos ma * 2 ^ (ea - E) ->
  Z.pos (digits2_pos P) + E <= Z.pos (digits2_pos ma) + ea ->
  binary_round_aux Float.prec Float.emax false (Z.pos P) E loc_Exact
    = S754_zero false \/
  exists my ey,
    binary_round_aux Float.prec Float.emax false (Z.pos P) E loc_Exact
      = S754_finite false my ey /\
    ey <= ea /\ Z.pos my <= Z.pos ma * 2 ^ (ea - ey).
Proof.
  intros Hb HE Hlt Hmag.
  destruct (canonical_digits _ _ Hb) as (Hcan & Hda & Hea & _).
  assert (He1 : fexp Float.prec Float.emax (Z.pos (digits2_pos P) + E)
                <= ea)
    by (rewrite <- Hcan; now apply fexp_monotone).
  (* the first step: [m2] at exponent [e1], still at or below [(ma, ea)] *)
  assert (Hfirst :
    let '(mrs', e') :=
      shr_fexp Float.prec Float.emax (Z.pos P) E loc_Exact in
    0 <= round_nearest_even (shr_m mrs') (loc_of_shr_record mrs') /\
    e' <= ea /\
    round_nearest_even (shr_m mrs') (loc_of_shr_record mrs')
      <= Z.pos ma * 2 ^ (ea - e')).
  { unfold shr_fexp. cbn [Zdigits2 shr_record_of_loc].
    destruct (fexp Float.prec Float.emax (Z.pos (digits2_pos P) + E) - E)
      as [|k|k] eqn:Ek; cbn [shr].
    - cbn [shr_m loc_of_shr_record round_nearest_even].
      split; [lia|]. split; lia.
    - rewrite iter_pos_nat.
      destruct (Pos2Nat.is_succ k) as [j Hj]. rewrite Hj.
      destruct (@iter_shr_1_spec (Z.pos P) j ltac:(lia)) as [Em _].
      replace (Z.of_nat (S j)) with (Z.pos k) in Em by lia.
      destruct (Nat.iter (S j) shr_1
                  (Build_shr_record (Z.pos P) false false)) as [m1 r s].
      cbn [shr_m] in Em. rewrite round_nearest_even_record.
      assert (Hpow : 0 < 2 ^ Z.pos k) by (apply Z.pow_pos_nonneg; lia).
      assert (Hm1 : 0 <= m1) by (subst m1; apply Z.div_pos; lia).
      assert (Hm1' : m1 + 1 <= Z.pos ma * 2 ^ (ea - (E + Z.pos k))).
      { assert (m1 < Z.pos ma * 2 ^ (ea - (E + Z.pos k))); [|lia].
        subst m1. apply Z.div_lt_upper_bound; [exact Hpow|].
        replace (2 ^ Z.pos k * (Z.pos ma * 2 ^ (ea - (E + Z.pos k))))
          with (Z.pos ma * 2 ^ (ea - E)); [exact Hlt|].
        replace (ea - E) with ((ea - (E + Z.pos k)) + Z.pos k) by lia.
        rewrite Z.pow_add_r by lia. ring. }
      destruct (r && (s || Z.odd m1)); (split; [lia|]); split; lia.
    - cbn [shr_m loc_of_shr_record round_nearest_even].
      split; [lia|]. split; lia. }
  unfold binary_round_aux.
  destruct (shr_fexp Float.prec Float.emax (Z.pos P) E loc_Exact)
    as [mrs' e'].
  destruct Hfirst as (Hm2 & He' & Hle).
  pose proof (renormalise_below _ Hb Hm2 He' Hle) as Hsecond.
  destruct (shr_fexp Float.prec Float.emax
              (round_nearest_even (shr_m mrs') (loc_of_shr_record mrs'))
              e' loc_Exact) as [mrs'' e''].
  destruct Hsecond as [Hz|(my & Hmy & He'' & Hmyle)].
  - left. now rewrite Hz.
  - right. exists my, e''. rewrite Hmy.
    replace (e'' <=? Float.emax - Float.prec) with true
      by (symmetry; apply Z.leb_le; unfold Float.emax, Float.prec; lia).
    auto.
Qed.

Lemma shl_align_spec (mx : positive) (ex ez : Z) :
  ez <= ex ->
  Z.pos (fst (shl_align mx ex ez)) = Z.pos mx * 2 ^ (ex - ez).
Proof.
  intros H. unfold shl_align.
  destruct (ez - ex) as [|d|d] eqn:Ed; cbn [fst]; try lia.
  - replace (ex - ez) with 0 by lia. lia.
  - rewrite iter_xO_spec. f_equal. f_equal. lia.
Qed.

(** Subtracting a finite float at or below [(ma, ea)] from it leaves an
    amount that is not negative. *)
Lemma sub_below_not_negative (ma my : positive) (ea ey : Z) :
  ey <= ea -> Z.pos my <= Z.pos ma * 2 ^ (ea - ey) ->
  not_negative (Float.sub (S754_finite false ma ea)
                          (S754_finite false my ey)).
Proof.
  intros He Hle. unfold Float.sub, SFsub. cbn [cond_Zopp].
  apply binary_normalize_not_negative.
  rewrite Z.min_r by exact He.
  rewrite !shl_align_spec by lia. rewrite Z.sub_diag. lia.
Qed.

(** A double rate in (0, 1] is 1.0 or has an exponent below that of 1.0. *)
Lemma proper_rate_cases (r : float) :
  is_double r -> proper_rate r ->
  r = Float.one \/
  exists mr er, r = S754_finite false mr er /\ er <= -53 /\
                Z.pos mr < 2 ^ 53.
Proof.
  unfold is_double, proper_rate. intros Hd [Hpos Hle].
  destruct r as [s|s| |s mr er]; try destruct s; try discriminate.
  cbn [valid_binary] in Hd.
  destruct (canonical_digits _ _ Hd) as (Hcan & Hdr & _ & _).
  pose proof (digits2_pos_bounds mr) as [Hlo Hhi].
  assert (Hmr : Z.pos mr < 2 ^ 53).
  { eapply Z.lt_le_trans; [exact Hhi|]. apply Z.pow_le_mono_r; lia. }
  unfold Float.leb, SFleb, SFcompare, Float.one in Hle.
  destruct (Z.compare_spec er (-52)) as [E|E|E]; try discriminate.
  - left. subst er. rewrite fexp_eq in Hcan.
    assert (Hd53 : Z.pos (digits2_pos mr) = 53) by lia.
    rewrite Hd53 in Hlo. change (2 ^ (53 - 1)) with 4503599627370496 in Hlo.
    rewrite Pos.compare_cont_spec in Hle.
    destruct (Pos.compare_spec mr 4503599627370496) as [E|E|E].
    + now subst mr.
    + exfalso. apply Pos2Z.pos_lt_pos in E. clear - Hlo E. lia.
    + discriminate Hle.
  - right. exists mr, er. repeat split; [lia | exact Hmr].
Qed.

(** ** A discount in (0, 1] *)

(** A rate in (0, 1] never takes more than the whole amount: for every
    finite subtotal that is not negative, the discount step returns an
    amount that is not negative either (nor NaN). *)
Theorem discount_within_unit_interval_not_negative (subtotal : Money)
    (r : float) :
  is_double (amount subtotal) -> is_finite (amount subtotal) ->
  not_negative (amount subtotal) ->
  is_double r -> proper_rate r ->
  exists d, _apply_discount subtotal (Some r) = Return d /\
            not_negative (amount d).
Proof.
  intros Hda Hfa Hna Hdr Hr.
  destruct (proper_rate_cases Hdr Hr) as [->|(mr & er & -> & Her & Hmr)].
  - exists zero_money. split; [|reflexivity].
    unfold _apply_discount.
    change (negb (Float.truthy Float.one) || Float.leb Float.one Float.zero)
      with false. cbv iota.
    unfold times, as_float, minus. cbn [rbind amount].
    now rewrite (mul_one Hda), (sub_self _ Hfa).
  - unfold _apply_discount.
    change (negb (Float.truthy (S754_finite false mr er))
            || Float.leb (S754_finite false mr er) Float.zero)
      with false. cbv iota.
    unfold times, as_float, minus. cbn [rbind amount].
    eexists. split; [reflexivity|]. cbn [amount].
    destruct (amount subtotal) as [s|s| |s ma ea];
      cbn [is_finite] in Hfa; try contradiction.
    + now destruct s.
    + destruct s; [discriminate Hna|].
      unfold is_double in Hda. cbn [valid_binary] in Hda.
      destruct (canonical_digits _ _ Hda) as (Hcan & Hdma & _ & _).
      unfold Float.mul, SFmul. cbn [xorb].
      destruct (@binary_round_aux_below (ma * mr) (ea + er) ma ea Hda)
        as [Hz|(my & ey & Hy & Hey & Hmy)].
      * lia.
      * rewrite Pos2Z.inj_mul.
        replace (ea - (ea + er)) with (- er) by lia.
        apply Z.mul_lt_mono_pos_l; [lia|].
        eapply Z.lt_le_trans; [exact Hmr|].
        apply Z.pow_le_mono_r; lia.
      * assert (Z.pos (digits2_pos (ma * mr))
                <= Z.pos (digits2_pos ma) + 53); [|lia].
        apply digits2_pos_le. rewrite Pos2Z.inj_mul, Z.pow_add_r by lia.
        pose proof (digits2_pos_bounds ma) as [_ Hhi].
        apply Z.mul_lt_mono_nonneg; lia.
      * rewrite Hz. reflexivity.
      * rewrite Hy. now apply sub_below_not_negative.
Qed.

Lemma discount_within_unit_interval_witness :
  exists d, _apply_discount {| amount := Float.lit 61.94 |}
                            (Some (Float.lit 0.1)) = Return d /\
            not_negative (amount d).
Proof.
  apply (@discount_within_unit_interval_not_negative
           {| amount := Float.lit 61.94 |} (Float.lit 0.1)).
  - vm_compute. reflexivity.
  - exact I.
  - vm_compute. reflexivity.
  - vm_compute. reflexivity.
  - split; vm_compute; reflexivity.
Defined.

(** ** Rounding to nearest *)







(** ** Exact values, as rationals *)











(** ** Rounding errors *)








(** ** The discount against subtotal × (1 − r) *)






(** ** The original flow *)

Lemma get_default_long (a : Before.dict) (key : string) (n : nat) :
  (S n <= String.length (Before.get_default a key ""))%nat ->
  Before.get a key = Some (Before.get_default a key "").
Proof.
  unfold Before.get_default. destruct (Before.get a key); [reflexivity|].
  cbn. lia.
Qed.

(** Once the total is computed and the address accepted, [proc] returns -1
    when the card number is absent or shorter than 12 characters, -2 when
    it has 12 characters or more and starts with neither "4" nor "5", and
    otherwise the total, which it then prints with the label; the lookup of
    the zip for the label never fails. *)
Theorem proc_return_codes (uid : Z) (c : Before.cart) (f : bool)
    (st : string) (a : Before.dict) (cc : option string) (t0 : float) :
  Before.total_loop (proc_items c) (Float.lit 0.0) = Before.Returns t0 ->
  (5 <= String.length (Before.get_default a "zip" ""))%nat ->
  proc_ends uid c f st a cc t0.
Proof.
  intros Ht Hzip. unfold proc_ends, Before.proc.
  fold (proc_items c). rewrite Ht.
  assert (Ha : a <> []) by (intros ->; cbn in Hzip; lia).
  destruct a as [|entry a']; [contradiction|]. cbn [orb].
  replace (String.length (Before.get_default (entry :: a') "zip" "") <? 5)%nat
    with false by (symmetry; apply Nat.ltb_ge; exact Hzip).
  rewrite (get_default_long _ _ Hzip).
  destruct cc as [card|]; [|left; split; [now left | reflexivity]].
  destruct (String.length card <? 12)%nat eqn:Hlen.
  - left. split.
    + right. exists card. split; [reflexivity | now apply Nat.ltb_lt].
    + now rewrite orb_true_r.
  - right. apply Nat.ltb_ge in Hlen as Hge.
    rewrite (str_truthy_long _ _ Hlen). cbn [negb orb].
    destruct (startswith card "4" || startswith card "5") eqn:Hp;
      cbn [negb].
    + right. exists card, (Before.get_default (entry :: a') "zip" "").
      split; [reflexivity|]. split; [exact Hge|].
      split; [now apply accepted_prefix_iff|]. split; [reflexivity|].
      unfold proc_total, proc_line, proc_label.
      destruct (String.eqb st "std"); [reflexivity|].
      destruct (String.eqb st "xp"); reflexivity.
    + left. exists card. split; [reflexivity|]. split; [exact Hge|].
      split; [|reflexivity].
      intros Hacc. apply accepted_prefix_iff in Hacc. congruence.
Qed.

Lemma proc_return_codes_witness :
  proc_ends 1 Before.sample_cart true "xp" Before.sample_address
            (Some "4111111111111111")
            (Float.add (Float.mul (Float.lit 19.99) (Float.lit 2.0))
                       (Float.mul (Float.lit 5.49) (Float.lit 4.0))).
Proof.
  apply (@proc_return_codes 1 Before.sample_cart true "xp"
           Before.sample_address (Some "4111111111111111")).
  - vm_compute. reflexivity.
  - vm_compute. lia.
Defined.

(** [proc] checks in a fixed order: a quantity that does not convert makes
    it raise before the address or the card are looked at, and a bad
    address makes it raise Exception("bad addr") before the card is looked
    at, whatever the card number; in both cases nothing is printed. *)
Theorem proc_checks_in_order (uid : Z) (c : Before.cart) (f : bool)
    (st : string) (addr : option Before.dict) (cc : option string) :
  (forall e,
     Before.total_loop (proc_items c) (Float.lit 0.0) = Before.Raises e ->
     Before.proc uid c f st addr cc = (Before.Raises e, [])) /\
  (forall t0,
     Before.total_loop (proc_items c) (Float.lit 0.0) = Before.Returns t0 ->
     bad_addr addr ->
     Before.proc uid c f st addr cc
       = (Before.Raises (Before.Exception "bad addr"), [])).
Proof.
  split.
  - intros e Ht. unfold Before.proc. fold (proc_items c). now rewrite Ht.
  - intros t0 Ht Hbad. unfold Before.proc. fold (proc_items c).
    rewrite Ht.
    destruct Hbad as [->|[->|(a & -> & Hlen)]]; try reflexivity.
    apply Nat.ltb_lt in Hlen. rewrite Hlen, orb_true_r. reflexivity.
Qed.

Lemma proc_checks_in_order_witness :
  Before.proc 1 Before.sample_cart true "xp" (Some [("zip", "123")])
              (Some "123")
  = (Before.Raises (Before.Exception "bad addr"), []).
Proof.
  apply (proj2 (proc_checks_in_order 1 Before.sample_cart true "xp"
                  (Some [("zip", "123")]) (Some "123"))
           (Float.add (Float.mul (Float.lit 19.99) (Float.lit 2.0))
                      (Float.mul (Float.lit 5.49) (Float.lit 4.0)))).
  - vm_compute. reflexivity.
  - right. right. exists [("zip", "123")].
    split; [reflexivity | vm_compute; lia].
Defined.

(** Neither the user id nor the shipping type has any influence on what
    [proc] returns or raises: the shipping type only chooses the prefix of
    the printed label, the surcharge follows the flag [f] alone. *)
Theorem proc_amount_ignores_shipping_type (uid uid' : Z) (c : Before.cart)
    (f : bool) (st st' : string) (addr : option Before.dict)
    (cc : option string) :
  fst (Before.proc uid c f st addr cc)
  = fst (Before.proc uid' c f st' addr cc).
Proof.
  unfold Before.proc.
  destruct (Before.total_loop _ _) as [t0|e]; [|reflexivity].
  destruct addr as [a|]; [|reflexivity].
  destruct (_ || _)%bool; [reflexivity|].
  destruct cc as [card|]; [|reflexivity].
  destruct (_ || _)%bool; [reflexivity|].
  destruct (negb _); [reflexivity|].
  destruct (Before.get a "zip"); reflexivity.
Qed.

(** ** The refactoring preserves the original flow *)

Lemma total_loop_items (items : list LineItem) :
  forall t,
    match _subtotal_loop items {| amount := t |} with
    | Return m =>
        Before.total_loop (map item_of items) t = Before.Returns (amount m)
    | Raise e =>
        e = OverflowError "int too large to convert to float" /\
        Before.total_loop (map item_of items) t
          = Before.Raises
              (Before.OverflowError "int too large to convert to float")
    end.
Proof.
  induction items as [|li rest IH]; intros t; cbn [_subtotal_loop map].
  - reflexivity.
  - cbn [Before.total_loop item_of Before.p Before.q].
    unfold extended, times, as_float.
    destruct (Float.of_int (quantity li)) as [y|]; cbn [rbind].
    + apply IH.
    + now split.
Qed.

Lemma tax_multiplier :
  Float.add Float.one NewYorkTax.RATE = Float.lit 1.08875.
Proof. vm_compute. reflexivity. Qed.

Lemma charge_verdict (W : Type) (cc : option string) (amount : Money)
    (w : W) :
  charge SimpleCardProcessor cc amount w = (card_verdict cc, w).
Proof.
  unfold card_verdict, SimpleCardProcessor. cbn [charge].
  destruct cc as [card|]; [|reflexivity].
  destruct (negb (str_truthy (Some card)) || (String.length card <? 12)%nat);
    [reflexivity|].
  destruct (negb (startswith card "4" || startswith card "5"));
    reflexivity.
Qed.

(** [checkout] with the reference service and one of the reference
    shipping options, once the subtotal and the discount are known. *)
Lemma reference_checkout (W : Type) (user_id : string) (cart : Cart)
    (sh : ShippingOption W) (fee : Money) (prefix : string)
    (ship_to : Address) (cc : option string) (s : mstate W)
    (subtotal discounted : Money) :
  surcharge sh = pure fee ->
  label sh ship_to = pure (prefix ++ zip ship_to) ->
  _subtotal (items cart) = Return subtotal ->
  _apply_discount subtotal (discount_rate cart) = Return discounted ->
  fst (checkout reference_service user_id cart sh ship_to cc s)
  = match card_verdict cc with
    | Return _ =>
        Return {| total :=
                    {| amount := Float.mul (Float.add (amount discounted)
                                                      (amount fee))
                                           (Float.lit 1.08875) |};
                  shipping_label := prefix ++ zip ship_to |}
    | Raise e => Raise e
    end.
Proof.
  intros Hfee Hlabel Hsub Hdisc.
  unfold checkout, bind, lift, invoke, _log, print, ret.
  rewrite Hsub, Hdisc, Hfee, Hlabel. unfold pure.
  cbn [world calls stdout reference_service _tax _payments NewYorkTax apply].
  unfold times, as_float. cbn [rbind]. rewrite tax_multiplier.
  unfold plus. cbn [amount]. rewrite charge_verdict.
  destruct (card_verdict cc) as [[]|e]; reflexivity.
Qed.

(** [proc] on the dict of a valid address, once the sum of the items is
    known. *)
Lemma proc_on_valid_address (uid : Z) (c : Before.cart) (f : bool)
    (st : string) (a : Address) (cc : option string) (t0 : float) :
  (5 <= String.length (zip a))%nat ->
  Before.total_loop (proc_items c) (Float.lit 0.0) = Before.Returns t0 ->
  refactored (Before.proc uid c f st (Some (dict_of a)) cc)
  = Some match card_verdict cc with
         | Return _ =>
             Return {| total := {| amount := proc_total c f t0 |};
                       shipping_label := proc_label st (zip a) |}
         | Raise e => Raise e
         end.
Proof.
  intros Hzip Ht. unfold Before.proc. fold (proc_items c). rewrite Ht.
  change (Before.get_default (dict_of a) "zip" "") with (zip a).
  change (Before.get (dict_of a) "zip") with (Some (zip a)).
  cbn [dict_of orb].
  replace (String.length (zip a) <? 5)%nat with false
    by (symmetry; now apply Nat.ltb_ge).
  unfold card_verdict, SimpleCardProcessor. cbn [charge].
  destruct cc as [card|]; [|reflexivity].
  destruct (negb (str_truthy (Some card)) || (String.length card <? 12)%nat);
    [reflexivity|].
  destruct (negb (startswith card "4" || startswith card "5"));
    [reflexivity|].
  unfold proc_label, refactored, pure. cbn [fst].
  destruct (String.eqb st "std"); [reflexivity|].
  destruct (String.eqb st "xp"); reflexivity.
Qed.

Lemma rate_taken_discount (subtotal : Money) (rate : option float) :
  rate_taken rate ->
  _apply_discount subtotal rate
  = Return {| amount := match rate with
                        | Some d => Float.sub (amount subtotal)
                                              (Float.mul (amount subtotal) d)
                        | None => amount subtotal
                        end |}.
Proof.
  intros [->|(r & -> & Hr)]; unfold _apply_discount.
  - now destruct subtotal.
  - now rewrite (positive_rate_applies _ Hr).
Qed.

(** With Express shipping, [checkout] of the reference service does what
    [proc] did with the fast flag set and shipping type "xp": for a valid
    address and a discount rate that is absent or positive, the Receipt
    holds the total [proc] returned and the label it printed, the codes -1
    and -2 have become PaymentDeclined("Invalid card") and
    PaymentDeclined("Unsupported card"), and a quantity that does not
    convert raises the same OverflowError. *)
Theorem checkout_does_what_proc_did_express (W : Type) (uid : Z)
    (user_id : string) (cart : Cart) (ship_to : Address)
    (cc : option string) (s : mstate W) :
  (5 <= String.length (zip ship_to))%nat ->
  rate_taken (discount_rate cart) ->
  refactored (Before.proc uid (cart_of cart) true "xp"
                          (Some (dict_of ship_to)) cc)
  = Some (fst (checkout reference_service user_id cart ExpressShipping
                        ship_to cc s)).
Proof.
  intros Hzip Hrate.
  pose proof (total_loop_items (items cart) (Float.lit 0.0)) as Hloop.
  fold (_subtotal (items cart)) in Hloop.
  destruct (_subtotal (items cart)) as [subtotal|e] eqn:Hsub.
  - rewrite (@proc_on_valid_address uid (cart_of cart) true "xp" ship_to
               cc _ Hzip Hloop).
    rewrite (@reference_checkout W user_id cart ExpressShipping
               {| amount := Float.lit 9.99 |} "EXP-" ship_to cc s
               subtotal _ eq_refl eq_refl Hsub
               (rate_taken_discount subtotal Hrate)).
    unfold proc_total, proc_label. cbn [cart_of Before.disc amount].
    change (String.eqb "xp" "std") with false.
    change (String.eqb "xp" "xp") with true. cbv iota.
    reflexivity.
  - destruct Hloop as [-> Hloop].
    unfold Before.proc. cbn [cart_of Before.c_items]. rewrite Hloop.
    unfold checkout, bind, lift. rewrite Hsub. reflexivity.
Qed.

Lemma checkout_does_what_proc_did_express_witness :
  refactored (Before.proc 1 (cart_of example_cart) true "xp"
                          (Some (dict_of example_address)) example_card)
  = Some (fst main).
Proof.
  apply (@checkout_does_what_proc_did_express unit 1 "u-123" example_cart
           example_address example_card start).
  - vm_compute. lia.
  - right. exists (Float.lit 0.10). split; reflexivity.
Defined.

Lemma add_zero_r (x : float) :
  x <> S754_zero true -> Float.add x (Float.lit 0.00) = x.
Proof.
  intros H. change (Float.lit 0.00) with Float.zero.
  destruct x as [s|s| |s m e]; try reflexivity.
  destruct s; [contradiction | reflexivity].
Qed.

(** With Standard shipping, [checkout] of the reference service does what
    [proc] did with the fast flag clear and shipping type "std", under the
    same conditions and provided the discounted amount is not -0.0 (to
    which [checkout] adds the surcharge 0.00, giving +0.0, while [proc]
    adds nothing). *)
Theorem checkout_does_what_proc_did_standard (W : Type) (uid : Z)
    (user_id : string) (cart : Cart) (ship_to : Address)
    (cc : option string) (s : mstate W) :
  (5 <= String.length (zip ship_to))%nat ->
  rate_taken (discount_rate cart) ->
  discounted_amount cart <> Return {| amount := S754_zero true |} ->
  refactored (Before.proc uid (cart_of cart) false "std"
                          (Some (dict_of ship_to)) cc)
  = Some (fst (checkout reference_service user_id cart StandardShipping
                        ship_to cc s)).
Proof.
  intros Hzip Hrate Hnz.
  pose proof (total_loop_items (items cart) (Float.lit 0.0)) as Hloop.
  fold (_subtotal (items cart)) in Hloop.
  unfold discounted_amount in Hnz.
  destruct (_subtotal (items cart)) as [subtotal|e] eqn:Hsub.
  - cbn [rbind] in Hnz.
    rewrite (rate_taken_discount subtotal Hrate) in Hnz.
    rewrite (@proc_on_valid_address uid (cart_of cart) false "std" ship_to
               cc _ Hzip Hloop).
    rewrite (@reference_checkout W user_id cart StandardShipping
               {| amount := Float.lit 0.00 |} "STD-" ship_to cc s
               subtotal _ eq_refl eq_refl Hsub
               (rate_taken_discount subtotal Hrate)).
    unfold proc_total, proc_label. cbn [cart_of Before.disc amount].
    change (String.eqb "std" "std") with true. cbv iota.
    rewrite add_zero_r; [reflexivity|].
    intros Hz. apply Hnz. now rewrite Hz.
  - destruct Hloop as [-> Hloop].
    unfold Before.proc. cbn [cart_of Before.c_items]. rewrite Hloop.
    unfold checkout, bind, lift. rewrite Hsub. reflexivity.
Qed.

Lemma checkout_does_what_proc_did_standard_witness :
  refactored (Before.proc 1 (cart_of example_cart) false "std"
                          (Some (dict_of example_address)) example_card)
  = Some (Return {| total := {| amount := Float.lit 39.19500000000001 |};
                    shipping_label := "STD-10001" |}).
Proof.
  apply (@checkout_does_what_proc_did_standard unit 1 "u-123" example_cart
           example_address example_card start).
  - vm_compute. lia.
  - right. exists (Float.lit 0.10). split; reflexivity.
  - vm_compute. discriminate.
Defined.
